(** * data_stream: the tunnel-backed data proxy service

    A shallow embedding of [data_stream/data_stream.py]: the settings and
    the SSH configuration resolver, the start/stop lifecycle of
    [DataProxyService], and the two HTTP handlers [proxy_data] and
    [health_check].  Python values that may be [None] are options, raised
    exceptions are explicit results, the dictionaries of header items are
    finite maps, and the calls into paramiko, sshtunnel and httpx are
    modelled at the boundary the source uses them. *)

From Stdlib Require Import ZArith String Ascii List Lia Bool.
From Stdlib Require Import Numbers.DecimalString Numbers.DecimalPos.
From stdpp Require Import base option list strings gmap.

Open Scope Z_scope.
Open Scope string_scope.

(** ** Python primitives *)

Module Py.

(** Exception classes the program can meet: the builtins raised by the
    resolver and the handlers, and httpx's hierarchy as the library
    declares it. *)
Inductive exc_class : Type :=
| ValueError | IndexError | AttributeError | OSError
| SSHException | BaseSSHTunnelForwarderError
| HTTPError | RequestError | HTTPStatusError
| TransportError | DecodingError | TooManyRedirects
| TimeoutException | NetworkError | ProtocolError | ProxyError
| UnsupportedProtocol
| ConnectTimeout | ReadTimeout | WriteTimeout | PoolTimeout
| ConnectError | ReadError | WriteError | CloseError
| LocalProtocolError | RemoteProtocolError
| InvalidURL | CookieConflict | StreamError.

(** The direct base class inside httpx ([None]: the base is [Exception]). *)
Definition base_class (c : exc_class) : option exc_class :=
  match c with
  | RequestError | HTTPStatusError => Some HTTPError
  | TransportError | DecodingError | TooManyRedirects => Some RequestError
  | TimeoutException | NetworkError | ProtocolError | ProxyError
  | UnsupportedProtocol => Some TransportError
  | ConnectTimeout | ReadTimeout | WriteTimeout | PoolTimeout =>
      Some TimeoutException
  | ConnectError | ReadError | WriteError | CloseError => Some NetworkError
  | LocalProtocolError | RemoteProtocolError => Some ProtocolError
  | _ => None
  end.

Definition exc_class_eqb (a b : exc_class) : bool :=
  match a, b with
  | ValueError, ValueError | IndexError, IndexError
  | AttributeError, AttributeError | OSError, OSError
  | SSHException, SSHException
  | BaseSSHTunnelForwarderError, BaseSSHTunnelForwarderError
  | HTTPError, HTTPError | RequestError, RequestError
  | HTTPStatusError, HTTPStatusError | TransportError, TransportError
  | DecodingError, DecodingError | TooManyRedirects, TooManyRedirects
  | TimeoutException, TimeoutException | NetworkError, NetworkError
  | ProtocolError, ProtocolError | ProxyError, ProxyError
  | UnsupportedProtocol, UnsupportedProtocol
  | ConnectTimeout, ConnectTimeout | ReadTimeout, ReadTimeout
  | WriteTimeout, WriteTimeout | PoolTimeout, PoolTimeout
  | ConnectError, ConnectError | ReadError, ReadError
  | WriteError, WriteError | CloseError, CloseError
  | LocalProtocolError, LocalProtocolError
  | RemoteProtocolError, RemoteProtocolError
  | InvalidURL, InvalidURL | CookieConflict, CookieConflict
  | StreamError, StreamError => true
  | _, _ => false
  end.

(** [issubclass c target], walking up the bases; the hierarchy is four
    levels deep, so four steps reach the root. *)
Fixpoint issubclass_fuel (fuel : nat) (c target : exc_class) : bool :=
  exc_class_eqb c target ||
  match fuel with
  | O => false
  | S fuel' =>
      match base_class c with
      | Some b => issubclass_fuel fuel' b target
      | None => false
      end
  end.

Definition issubclass : exc_class -> exc_class -> bool := issubclass_fuel 4.

(** A raised exception: its class and [str(e)]. *)
Record exn : Type := Exn { exn_class : exc_class; exn_str : string }.

Definition isinstance (e : exn) (c : exc_class) : bool :=
  issubclass (exn_class e) c.

Inductive result (A : Type) : Type :=
| Ok (a : A)
| Raise (e : exn).
Arguments Ok {A} a.
Arguments Raise {A} e.

Definition bind {A B} (r : result A) (k : A -> result B) : result B :=
  match r with
  | Ok a => k a
  | Raise e => Raise e
  end.

(** Truth value of an [Optional[str]]: [None] and the empty string are
    false. *)
Definition truthy (o : option string) : bool :=
  match o with
  | Some s => negb (String.eqb s "")
  | None => false
  end.

(** [o is not None]. *)
Definition is_not_None {A} (o : option A) : bool :=
  match o with
  | Some _ => true
  | None => false
  end.

(** [d.get(key, default)] on an optional entry. *)
Definition get_default {A} (entry : option A) (default : A) : A :=
  match entry with
  | Some a => a
  | None => default
  end.

(** [str(n)] for an [int], as an f-string renders it. *)
Definition str_of_int (n : Z) : string :=
  NilEmpty.string_of_int (Z.to_int n).

(** ASCII [lower()]: header names and the literal they are compared with
    are ASCII. *)
Definition ascii_lower (c : ascii) : ascii :=
  let n := nat_of_ascii c in
  if (Nat.leb 65 n && Nat.leb n 90)%bool then ascii_of_nat (n + 32) else c.

Fixpoint lower (s : string) : string :=
  match s with
  | EmptyString => EmptyString
  | String c s' => String (ascii_lower c) (lower s')
  end.

(** [sep.join(l)]. *)
Fixpoint join (sep : string) (l : list string) : string :=
  match l with
  | [] => ""
  | x :: l' =>
      match l' with
      | [] => x
      | _ :: _ => x +:+ sep +:+ join sep l'
      end
  end.

(** [int(s)] on a string, base ten: surrounding whitespace is stripped,
    one sign is allowed, and single underscores may separate digits. *)
Definition isspace (c : ascii) : bool :=
  let n := nat_of_ascii c in
  ((Nat.leb 9 n && Nat.leb n 13) || (Nat.leb 28 n && Nat.leb n 32)
   || Nat.eqb n 133 || Nat.eqb n 160)%bool.

Fixpoint lstrip (s : string) : string :=
  match s with
  | EmptyString => EmptyString
  | String c s' => if isspace c then lstrip s' else s
  end.

Fixpoint rstrip (s : string) : string :=
  match s with
  | EmptyString => EmptyString
  | String c s' =>
      match rstrip s' with
      | EmptyString => if isspace c then EmptyString else String c EmptyString
      | t => String c t
      end
  end.

Definition strip (s : string) : string := lstrip (rstrip s).

Definition digit_val (c : ascii) : option Z :=
  let n := nat_of_ascii c in
  if (Nat.leb 48 n && Nat.leb n 57)%bool then Some (Z.of_nat (n - 48))
  else None.

Fixpoint parse_digits (acc : Z) (after_digit : bool) (s : string)
  : option Z :=
  match s with
  | EmptyString => if after_digit then Some acc else None
  | String c s' =>
      match digit_val c with
      | Some d => parse_digits (10 * acc + d) true s'
      | None =>
          if (Ascii.eqb c "_" && after_digit)%bool
          then parse_digits acc false s'
          else None
      end
  end.

Definition int_of_str (s : string) : result Z :=
  let invalid :=
    Raise (Exn ValueError ("invalid literal for int() with base 10: '" +:+ s +:+ "'")) in
  let of_opt (sign : Z) (o : option Z) :=
    match o with
    | Some n => Ok (sign * n)
    | None => invalid
    end in
  match strip s with
  | String "-" t => of_opt (-1) (parse_digits 0 false t)
  | String "+" t => of_opt 1 (parse_digits 0 false t)
  | t => of_opt 1 (parse_digits 0 false t)
  end.

End Py.

Notation "'let!' x ':=' c1 'in' c2" := (Py.bind c1 (fun x => c2))
  (at level 10, x name, c1 at level 100, c2 at level 200).

(** ** Settings and the SSH configuration resolver *)

(** [class Settings(BaseSettings)]: the four SSH fields default to [None]. *)
Record Settings : Type := {
  ssh_host_alias : option string;
  ssh_host : option string;
  ssh_username : option string;
  ssh_key_path : option string;
  data_path : string;
  local_port : Z;
  remote_port : Z;
  fastapi_port : Z
}.

(** [@dataclass class SSHConfig].  The annotations say [str], but the
    dataclass stores whatever it is given, [None] included. *)
Record SSHConfig : Type := {
  hostname : option string;
  username : option string;
  key_filename : option string;
  port : Z
}.

(** The dictionary [paramiko.SSHConfig.lookup] returns for one alias, with
    the four keys the program reads; an absent key is [None]. *)
Record HostConfig : Type := {
  hc_hostname : option string;
  hc_user : option string;
  hc_identityfile : option (list string);
  hc_port : option string
}.

(** [SSHConfigProvider]: the parsed [~/.ssh/config] answers lookups; a
    missing file leaves the empty configuration. *)
Record SSHConfigProvider : Type := {
  lookup : string -> HostConfig
}.

(** [host_config.get('identityfile', [None])[0]]. *)
Definition first_identityfile (hc : HostConfig) : Py.result (option string) :=
  match hc_identityfile hc with
  | None => Py.Ok None
  | Some [] => Py.Raise (Py.Exn Py.IndexError "list index out of range")
  | Some (f :: _) => Py.Ok (Some f)
  end.

(** [int(host_config.get('port', 22))]. *)
Definition port_of (hc : HostConfig) : Py.result Z :=
  match hc_port hc with
  | None => Py.Ok 22
  | Some s => Py.int_of_str s
  end.

(** [SSHConfigProvider.get_ssh_config]: the keyword arguments are evaluated
    in the order they are written. *)
Definition get_ssh_config (p : SSHConfigProvider) (host_alias : string)
  : Py.result SSHConfig :=
  let host_config := lookup p host_alias in
  let hostname := Py.get_default (hc_hostname host_config) host_alias in
  let username := hc_user host_config in
  let! key := first_identityfile host_config in
  let! prt := port_of host_config in
  Py.Ok {| hostname := Some hostname; username := username;
           key_filename := key; port := prt |}.

(** [DataProxyService._get_ssh_config].  In the first branch the alias is a
    non-empty string. *)
Definition _get_ssh_config (s : Settings) (p : SSHConfigProvider)
  : Py.result SSHConfig :=
  if Py.truthy (ssh_host_alias s) then
    get_ssh_config p (Py.get_default (ssh_host_alias s) "")
  else
    Py.Ok {| hostname := ssh_host s; username := ssh_username s;
             key_filename := ssh_key_path s; port := 22 |}.

(** ** The service, its resources and the calls it makes *)

(** The forwarder object held in [self.tunnel]; [tunnel_alive] says whether
    it holds its transport or listening socket. *)
Record Tunnel : Type := { tunnel_alive : bool }.

(** The [paramiko.SSHClient] held in [self.ssh_client]; [ssh_open] says
    whether it holds a transport. *)
Record SSHClient : Type := { ssh_open : bool }.

Record DataProxyService : Type := {
  settings : Settings;
  tunnel : option Tunnel;
  ssh_client : option SSHClient;
  client_open : bool;
  ssh_config_provider : SSHConfigProvider;
  ssh_config : SSHConfig
}.

(** [DataProxyService.__init__]: nothing is connected yet, the shared
    [httpx.AsyncClient] is open, and the configuration is resolved. *)
Definition init (s : Settings) (p : SSHConfigProvider)
  : Py.result DataProxyService :=
  let! cfg := _get_ssh_config s p in
  Py.Ok {| settings := s; tunnel := None; ssh_client := None;
           client_open := true; ssh_config_provider := p;
           ssh_config := cfg |}.

(** The library calls of [start] and [stop], in the order they are made. *)
Inductive event : Type :=
| SSHTunnelForwarder_init (host user pkey : option string) (ssh_port : Z)
    (remote_bind_port local_bind_port : Z)
| tunnel_start
| SSHClient_init
| set_missing_host_key_policy
| ssh_connect (host user key : option string) (ssh_port : Z)
| exec_command (cmd : string)
| client_aclose
| ssh_close
| tunnel_stop.

(** How a library call that acquires a resource ends: it returns, or it
    raises and leaves the object holding ([held = true]) or not holding what
    it had acquired so far. *)
Inductive outcome : Type :=
| Returns
| Raises (e : Py.exn) (held : bool).

(** One run's behaviour of the remote side and of the libraries. *)
Record Remote : Type := {
  on_tunnel_init : option Py.exn;
  on_tunnel_start : outcome;
  on_connect : outcome;
  on_exec : string -> option Py.exn
}.

(** Methods of the service: they read and update [self], append to the
    record of calls, and return or raise.  An update made before a raise
    stays made. *)
Module Method.

Definition state : Type := DataProxyService * list event.

Definition t (A : Type) : Type := state -> Py.result A * state.

Definition ret {A} (a : A) : t A := fun st => (Py.Ok a, st).

Definition raise {A} (e : Py.exn) : t A := fun st => (Py.Raise e, st).

Definition bind {A B} (m : t A) (k : A -> t B) : t B :=
  fun st =>
    match m st with
    | (Py.Ok a, st') => k a st'
    | (Py.Raise e, st') => (Py.Raise e, st')
    end.

(** [try: m except Exception as e: h e]. *)
Definition try_except {A} (m : t A) (h : Py.exn -> t A) : t A :=
  fun st =>
    match m st with
    | (Py.Ok a, st') => (Py.Ok a, st')
    | (Py.Raise e, st') => h e st'
    end.

Definition self : t DataProxyService := fun st => (Py.Ok (fst st), st).

Definition assign (f : DataProxyService -> DataProxyService) : t unit :=
  fun st => (Py.Ok tt, (f (fst st), snd st)).

Definition call (ev : event) : t unit :=
  fun st => (Py.Ok tt, (fst st, (snd st ++ [ev])%list)).

Definition check (o : option Py.exn) : t unit :=
  match o with
  | None => ret tt
  | Some e => raise e
  end.

End Method.

Notation "'do!' x '<-' m ';' k" := (Method.bind m (fun x => k))
  (at level 10, x name, m at level 100, k at level 200).
Notation "m ';;' k" := (Method.bind m (fun _ => k))
  (at level 100, k at level 200, right associativity).

Definition set_tunnel (o : option Tunnel) (s : DataProxyService)
  : DataProxyService :=
  {| settings := settings s; tunnel := o; ssh_client := ssh_client s;
     client_open := client_open s;
     ssh_config_provider := ssh_config_provider s;
     ssh_config := ssh_config s |}.

Definition set_ssh_client (o : option SSHClient) (s : DataProxyService)
  : DataProxyService :=
  {| settings := settings s; tunnel := tunnel s; ssh_client := o;
     client_open := client_open s;
     ssh_config_provider := ssh_config_provider s;
     ssh_config := ssh_config s |}.

Definition set_client_open (b : bool) (s : DataProxyService)
  : DataProxyService :=
  {| settings := settings s; tunnel := tunnel s; ssh_client := ssh_client s;
     client_open := b;
     ssh_config_provider := ssh_config_provider s;
     ssh_config := ssh_config s |}.

(** The two remote commands of [start]. *)
Definition kill_pattern (remote_port : Z) : string :=
  "python -m http.server " +:+ Py.str_of_int remote_port.

Definition kill_cmd (remote_port : Z) : string :=
  "pkill -f '" +:+ kill_pattern remote_port +:+ "'".

(** The command line of the file server the launch command starts. *)
Definition server_cmdline (remote_port : Z) : string :=
  "python3 -m http.server " +:+ Py.str_of_int remote_port.

Definition launch_cmd (data_path : string) (remote_port : Z) : string :=
  "cd " +:+ data_path +:+ " && " +:+ server_cmdline remote_port
  +:+ " > /dev/null 2>&1 &".

(** A library call on an object already stored in [self]: on a raise the
    object keeps what the call left it holding. *)
Definition acquire (o : outcome) (store : bool -> DataProxyService -> DataProxyService)
  : Method.t unit :=
  match o with
  | Returns => Method.assign (store true)
  | Raises e held => Method.assign (store held) ;; Method.raise e
  end.

(** [DataProxyService.stop].  The three close calls return on an object
    that is already closed or was never opened. *)
Definition stop : Method.t unit :=
  Method.call client_aclose ;;
  Method.assign (set_client_open false) ;;
  do! s <- Method.self ;
  match ssh_client s with
  | Some _ =>
      Method.call ssh_close ;;
      Method.assign (set_ssh_client (Some {| ssh_open := false |}))
  | None => Method.ret tt
  end ;;
  do! s <- Method.self ;
  match tunnel s with
  | Some _ =>
      Method.call tunnel_stop ;;
      Method.assign (set_tunnel (Some {| tunnel_alive := false |}))
  | None => Method.ret tt
  end.

(** The body of the [try] in [DataProxyService.start]. *)
Definition start_body (env : Remote) : Method.t unit :=
  do! s <- Method.self ;
  let cfg := ssh_config s in
  Method.call (SSHTunnelForwarder_init (hostname cfg) (username cfg)
                 (key_filename cfg) (port cfg)
                 (remote_port (settings s)) (local_port (settings s))) ;;
  Method.check (on_tunnel_init env) ;;
  Method.assign (set_tunnel (Some {| tunnel_alive := false |})) ;;
  Method.call tunnel_start ;;
  acquire (on_tunnel_start env)
    (fun b => set_tunnel (Some {| tunnel_alive := b |})) ;;
  Method.call SSHClient_init ;;
  Method.assign (set_ssh_client (Some {| ssh_open := false |})) ;;
  Method.call set_missing_host_key_policy ;;
  Method.call (ssh_connect (hostname cfg) (username cfg) (key_filename cfg)
                 (port cfg)) ;;
  acquire (on_connect env)
    (fun b => set_ssh_client (Some {| ssh_open := b |})) ;;
  let kill := kill_cmd (remote_port (settings s)) in
  Method.call (exec_command kill) ;;
  Method.check (on_exec env kill) ;;
  let cmd := launch_cmd (data_path (settings s)) (remote_port (settings s)) in
  Method.call (exec_command cmd) ;;
  Method.check (on_exec env cmd).

(** [DataProxyService.start]: on any exception, [stop] and re-raise. *)
Definition start (env : Remote) : Method.t unit :=
  Method.try_except (start_body env)
    (fun e => stop ;; Method.raise e).

(** What [pkill -f pattern] does with one process: the pattern is searched
    in the full command line as a regular expression.  The patterns of this
    program are made of literal characters and [.], which stands for any
    character. *)
Fixpoint regex_here (pattern text : string) : bool :=
  match pattern with
  | EmptyString => true
  | String p pattern' =>
      match text with
      | EmptyString => false
      | String c text' =>
          ((Ascii.eqb p "." || Ascii.eqb p c) && regex_here pattern' text')%bool
      end
  end.

Fixpoint pkill_f_matches (pattern cmdline : string) : bool :=
  (regex_here pattern cmdline ||
   match cmdline with
   | EmptyString => false
   | String _ rest => pkill_f_matches pattern rest
   end)%bool.

(** No resource of the service is held. *)
Definition released (s : DataProxyService) : Prop :=
  client_open s = false /\
  (forall c, ssh_client s = Some c -> ssh_open c = false) /\
  (forall t, tunnel s = Some t -> tunnel_alive t = false).

(** ** httpx: responses, headers and the non-streaming [get] *)

Module httpx.

(** Header lines in the order they were received. *)
Abbreviation Headers := (list (string * string)).

(** [Headers.items()]: one entry per lower-cased name; the values of a
    repeated name are joined with a comma. *)
Definition add_item (d : gmap string string) (kv : string * string)
  : gmap string string :=
  let key := Py.lower (fst kv) in
  match d !! key with
  | Some old => <[key := old +:+ ", " +:+ snd kv]> d
  | None => <[key := snd kv]> d
  end.

Definition items (h : Headers) : gmap string string :=
  foldl add_item ∅ h.

(** [Headers.get(key)]: the joined values of the lines with that name, or
    [None]. *)
Definition values_of (h : Headers) (key : string) : list string :=
  snd <$> filter (fun kv => Py.lower (fst kv) = Py.lower key) h.

Definition get (h : Headers) (key : string) : option string :=
  match values_of h key with
  | [] => None
  | vs => Some (Py.join ", " vs)
  end.

(** What the upstream server sends: status line, header lines, and the
    body in the pieces it arrives in. *)
Record Wire : Type := {
  wire_status : Z;
  wire_headers : Headers;
  wire_body : list (list Byte.byte)
}.

(** The response object [client.get] returns; [content] is the body it
    has read. *)
Record Response : Type := {
  status_code : Z;
  headers : Headers;
  content : list Byte.byte
}.

(** [await client.get(url)]: a request sent without [stream=True] reads
    the response body to its end before it returns. *)
Definition client_get (upstream : string -> Py.result Wire) (url : string)
  : Py.result Response :=
  let! w := upstream url in
  Py.Ok {| status_code := wire_status w; headers := wire_headers w;
           content := concat (wire_body w) |}.

(** [range(start, stop, step)] for [step >= 1]. *)
Fixpoint range_fuel (fuel start stop step : nat) : list nat :=
  match fuel with
  | O => []
  | S fuel' =>
      if Nat.ltb start stop
      then start :: range_fuel fuel' (start + step) stop step
      else []
  end.

Definition range (start stop step : nat) : list nat :=
  range_fuel stop start stop step.

(** [b[i:j]]. *)
Definition slice {A} (b : list A) (i j : nat) : list A :=
  take (j - i) (drop i b).

(** [response.aiter_bytes()] on a response whose body has been read, with
    no [chunk_size]: the chunk size is the length of the content. *)
Definition aiter_bytes (r : Response) : list (list Byte.byte) :=
  let chunk_size := List.length (content r) in
  map (fun i => slice (content r) i (i + chunk_size))
      (range 0 (List.length (content r)) (Nat.max chunk_size 1)).

End httpx.

(** ** The handlers *)

(** [StreamingResponse(content, status_code=200, headers, media_type)];
    [body_iterator] lists the chunks the iterator yields. *)
Record StreamingResponse : Type := {
  body_iterator : list (list Byte.byte);
  status_code : Z;
  headers : gmap string string;
  media_type : option string
}.

(** How a handler ends: it returns a response, raises FastAPI's
    [HTTPException], or raises something else. *)
Inductive handled (A : Type) : Type :=
| Return (a : A)
| HTTPException (status_code : Z) (detail : string)
| Uncaught (e : Py.exn).
Arguments Return {A} a.
Arguments HTTPException {A} status_code detail.
Arguments Uncaught {A} e.

(** The module's global: [proxy_service]. *)
Record App : Type := { proxy_service : option DataProxyService }.

Definition no_service {A} (attr : string) : handled A :=
  Uncaught (Py.Exn Py.AttributeError
              ("'NoneType' object has no attribute '" +:+ attr +:+ "'")).

Definition url_of (local_port : Z) (filename : string) : string :=
  "http://127.0.0.1:" +:+ Py.str_of_int local_port +:+ "/" +:+ filename.

(** [iterfile()]: every chunk of [response.aiter_bytes()], as it comes. *)
Definition iterfile (response : httpx.Response) : list (list Byte.byte) :=
  httpx.aiter_bytes response.

(** [proxy_data]: the handler of [GET /data/{filename:path}].  It returns
    its outcome and the global it leaves behind. *)
Definition proxy_data (app : App) (upstream : string -> Py.result httpx.Wire)
    (filename : string) : handled StreamingResponse * App :=
  match proxy_service app with
  | None => (no_service "settings", app)
  | Some svc =>
      let url := url_of (local_port (settings svc)) filename in
      match httpx.client_get upstream url with
      | Py.Ok response =>
          if Z.eqb (httpx.status_code response) 404
          then (HTTPException 404 "File not found", app)
          else
            (Return
               {| body_iterator := iterfile response;
                  status_code := 200;
                  media_type := httpx.get (httpx.headers response) "content-type";
                  headers :=
                    filter (fun kv => Py.lower (fst kv) <> "content-length")
                           (httpx.items (httpx.headers response)) |},
             app)
      | Py.Raise e =>
          if Py.isinstance e Py.HTTPError
          then (HTTPException 500 (Py.exn_str e), app)
          else (Uncaught e, app)
      end
  end.

(** The JSON object [health_check] returns. *)
Record Connection : Type := {
  conn_hostname : option string;
  conn_username : option string;
  using_ssh_config : bool
}.

Record Health : Type := {
  status : string;
  connection : Connection
}.

(** [health_check]: the handler of [GET /health]. *)
Definition health_check (app : App) : handled Health * App :=
  match proxy_service app with
  | None => (no_service "ssh_config", app)
  | Some svc =>
      let ssh_config := ssh_config svc in
      (Return
         {| status := "OK";
            connection :=
              {| conn_hostname := hostname ssh_config;
                 conn_username := username ssh_config;
                 using_ssh_config :=
                   Py.is_not_None (ssh_host_alias (settings svc)) |} |},
       app)
  end.

(** [startup_event]: the global is bound to the new service before [start]
    runs on it, so it stays bound to that service when [start] raises. *)
Definition startup_event (s : Settings) (p : SSHConfigProvider) (env : Remote)
    (app : App) : Py.result unit * App * list event :=
  match init s p with
  | Py.Raise e => (Py.Raise e, app, [])
  | Py.Ok svc =>
      let '(r, (svc', calls)) := start env (svc, []) in
      (r, {| proxy_service := Some svc' |}, calls)
  end.

(** [shutdown_event]. *)
Definition shutdown_event (app : App) : Py.result unit * App * list event :=
  match proxy_service app with
  | Some svc =>
      let '(r, (svc', calls)) := stop (svc, []) in
      (r, {| proxy_service := Some svc' |}, calls)
  | None => (Py.Ok tt, app, [])
  end.

(** What FastAPI sends to the caller for each way a handler ends. *)
Inductive payload (A : Type) : Type :=
| Body (a : A)
| Detail (detail : string)
| InternalServerError.
Arguments Body {A} a.
Arguments Detail {A} detail.
Arguments InternalServerError {A}.

Definition caller_sees {A} (status_of : A -> Z) (h : handled A) : Z * payload A :=
  match h with
  | Return a => (status_of a, Body a)
  | HTTPException sc d => (sc, Detail d)
  | Uncaught _ => (500, InternalServerError)
  end.

(** ** Concrete configurations and runs *)

(** No [~/.ssh/config]: every lookup answers with no key set. *)
Definition no_ssh_config_file : SSHConfigProvider :=
  {| lookup := fun _ =>
       {| hc_hostname := None; hc_user := None;
          hc_identityfile := None; hc_port := None |} |}.

(** An SSH configuration with the entry
    [Host lab / HostName lab.example.org / User ada / Port 2222]. *)
Definition lab_ssh_config_file : SSHConfigProvider :=
  {| lookup := fun a =>
       if String.eqb a "lab" then
         {| hc_hostname := Some "lab.example.org"; hc_user := Some "ada";
            hc_identityfile := Some ["/home/ada/.ssh/id_ed25519"];
            hc_port := Some "2222" |}
       else
         {| hc_hostname := Some a; hc_user := None;
            hc_identityfile := None; hc_port := None |} |}.

(** Only [PROXY_DATA_PATH] is set in the environment. *)
Definition bare_settings : Settings :=
  {| ssh_host_alias := None; ssh_host := None; ssh_username := None;
     ssh_key_path := None; data_path := "/srv/data";
     local_port := 8000; remote_port := 8001; fastapi_port := 5000 |}.

(** [PROXY_SSH_HOST] and [PROXY_SSH_USERNAME] are set. *)
Definition explicit_settings : Settings :=
  {| ssh_host_alias := None; ssh_host := Some "files.example.org";
     ssh_username := Some "grace"; ssh_key_path := None;
     data_path := "/srv/data";
     local_port := 9000; remote_port := 9001; fastapi_port := 5000 |}.

(** As [explicit_settings], with [PROXY_SSH_HOST_ALIAS] set to the empty
    string. *)
Definition empty_alias_settings : Settings :=
  {| ssh_host_alias := Some ""; ssh_host := Some "files.example.org";
     ssh_username := Some "grace"; ssh_key_path := None;
     data_path := "/srv/data";
     local_port := 9000; remote_port := 9001; fastapi_port := 5000 |}.

(** [PROXY_SSH_HOST_ALIAS=lab]. *)
Definition alias_settings : Settings :=
  {| ssh_host_alias := Some "lab"; ssh_host := None; ssh_username := None;
     ssh_key_path := None; data_path := "/srv/data";
     local_port := 9000; remote_port := 9001; fastapi_port := 5000 |}.

Definition explicit_service : DataProxyService :=
  {| settings := explicit_settings; tunnel := None; ssh_client := None;
     client_open := true; ssh_config_provider := no_ssh_config_file;
     ssh_config :=
       {| hostname := Some "files.example.org"; username := Some "grace";
          key_filename := None; port := 22 |} |}.

(** A run in which the tunnel comes up and the SSH login is refused while
    the client still holds its socket. *)
Definition login_refused : Remote :=
  {| on_tunnel_init := None; on_tunnel_start := Returns;
     on_connect := Raises (Py.Exn Py.SSHException "Authentication failed.") true;
     on_exec := fun _ => None |}.

(** A run in which every call returns. *)
Definition all_fine : Remote :=
  {| on_tunnel_init := None; on_tunnel_start := Returns;
     on_connect := Returns; on_exec := fun _ => None |}.

(** The first startup step that raises in a run, if any. *)
Definition failure_of (o : outcome) : option Py.exn :=
  match o with
  | Returns => None
  | Raises e _ => Some e
  end.

Definition first_failure (env : Remote) (s : DataProxyService)
  : option Py.exn :=
  match on_tunnel_init env with
  | Some e => Some e
  | None =>
  match failure_of (on_tunnel_start env) with
  | Some e => Some e
  | None =>
  match failure_of (on_connect env) with
  | Some e => Some e
  | None =>
  match on_exec env (kill_cmd (remote_port (settings s))) with
  | Some e => Some e
  | None =>
      on_exec env (launch_cmd (data_path (settings s))
                              (remote_port (settings s)))
  end end end end.

(** A connection spec with a non-empty hostname and a non-empty username. *)
Definition complete (c : SSHConfig) : Prop :=
  Py.truthy (hostname c) = true /\ Py.truthy (username c) = true.

(** The service as [stop] leaves it, and the calls [stop] makes on it. *)
Definition stopped (s : DataProxyService) : DataProxyService :=
  {| settings := settings s;
     tunnel := match tunnel s with
               | Some _ => Some {| tunnel_alive := false |}
               | None => None
               end;
     ssh_client := match ssh_client s with
                   | Some _ => Some {| ssh_open := false |}
                   | None => None
                   end;
     client_open := false;
     ssh_config_provider := ssh_config_provider s;
     ssh_config := ssh_config s |}.

Definition stop_calls (s : DataProxyService) : list event :=
  (client_aclose
   :: match ssh_client s with Some _ => [ssh_close] | None => [] end
   ++ match tunnel s with Some _ => [tunnel_stop] | None => [] end)%list.

(** [c] does not occur in [s]. *)
Fixpoint avoids (c : ascii) (s : string) : bool :=
  match s with
  | EmptyString => true
  | String d s' => (negb (Ascii.eqb c d) && avoids c s')%bool
  end.

(** An upstream that answers every URL with [n] bytes of a PDF, one byte
    at a time. *)
Definition pdf_in_single_bytes (n : nat) : httpx.Wire :=
  {| httpx.wire_status := 200;
     httpx.wire_headers :=
       [("Content-Type", "application/pdf");
        ("Content-Length", Py.str_of_int (Z.of_nat n))];
     httpx.wire_body := repeat [Byte.x25] n |}.

(** Upstream answers: a missing file, a refused directory, and a refused
    connection. *)
Definition upstream_404 : httpx.Wire :=
  {| httpx.wire_status := 404;
     httpx.wire_headers := [("Content-Type", "text/html;charset=utf-8")];
     httpx.wire_body := [[Byte.x3c; Byte.x21]] |}.

Definition upstream_403 : httpx.Wire :=
  {| httpx.wire_status := 403;
     httpx.wire_headers :=
       [("Server", "SimpleHTTP/0.6"); ("Content-Type", "text/html");
        ("Content-Length", "2"); ("Set-Cookie", "a=1"); ("set-cookie", "b=2")];
     httpx.wire_body := [[Byte.x6e]; [Byte.x6f]] |}.

Definition connection_refused : Py.exn :=
  Py.Exn Py.ConnectError "All connection attempts failed".

Definition explicit_app : App := {| proxy_service := Some explicit_service |}.

(** The response object [proxy_data] holds once the fetch has returned. *)
Definition fetched (w : httpx.Wire) : httpx.Response :=
  {| httpx.status_code := httpx.wire_status w;
     httpx.headers := httpx.wire_headers w;
     httpx.content := concat (httpx.wire_body w) |}.

(** ** Loading the SSH configuration file *)

(** What [paramiko.SSHConfig()] answers before anything is parsed into it:
    [lookup] always sets the hostname, to the name that was asked for. *)
Definition empty_SSHConfig : SSHConfigProvider :=
  {| lookup := fun a =>
       {| hc_hostname := Some a; hc_user := None;
          hc_identityfile := None; hc_port := None |} |}.

(** [SSHConfigProvider._load_ssh_config]: when [~/.ssh/config] exists its
    parse ([Some parsed]) answers the lookups; when it does not, a warning
    is logged and the configuration stays empty. *)
Definition _load_ssh_config (file : option SSHConfigProvider)
  : SSHConfigProvider :=
  match file with
  | Some parsed => parsed
  | None => empty_SSHConfig
  end.

(** ** The command line entry point *)

(** The namespace [parser.parse_args()] returns. *)
Record Namespace : Type := {
  arg_ssh_host_alias : option string;
  arg_ssh_host : option string;
  arg_ssh_username : option string;
  arg_ssh_key_path : option string;
  arg_data_path : string;
  arg_local_port : Z;
  arg_remote_port : Z;
  arg_fastapi_port : Z
}.

(** What the required, mutually exclusive group guarantees of a namespace
    that [parse_args] returned: exactly one of the two options was given. *)
Definition one_of_group (args : Namespace) : bool :=
  xorb (Py.is_not_None (arg_ssh_host_alias args))
       (Py.is_not_None (arg_ssh_host args)).

(** How [main] ends once the arguments are parsed: [parser.error] (usage
    message, exit status 2), the [TypeError] of [os.environ[name] = None],
    or the call of [uvicorn.run]. *)
Inductive main_end : Type :=
| parser_error (message : string)
| TypeError_str_expected (name : string)
| uvicorn_run (host : string) (port : Z).

(** [os.environ[name] = value], then the rest of [main]. *)
Definition setenv (name : string) (value : option string)
    (rest : gmap string string -> main_end * gmap string string)
    (environ : gmap string string) : main_end * gmap string string :=
  match value with
  | Some v => rest (<[name := v]> environ)
  | None => (TypeError_str_expected name, environ)
  end.

(** [main], from the validation of the arguments on. *)
Definition main (args : Namespace) (environ : gmap string string)
  : main_end * gmap string string :=
  if (Py.truthy (arg_ssh_host args)
      && negb (Py.truthy (arg_ssh_username args)))%bool
  then
    (parser_error "--ssh-username is required when using --ssh-host", environ)
  else
    let common :=
      setenv "PROXY_DATA_PATH" (Some (arg_data_path args))
        (setenv "PROXY_LOCAL_PORT" (Some (Py.str_of_int (arg_local_port args)))
           (setenv "PROXY_REMOTE_PORT"
              (Some (Py.str_of_int (arg_remote_port args)))
              (setenv "PROXY_FASTAPI_PORT"
                 (Some (Py.str_of_int (arg_fastapi_port args)))
                 (fun environ =>
                    (uvicorn_run "0.0.0.0" (arg_fastapi_port args), environ)))))
    in
    if Py.truthy (arg_ssh_host_alias args) then
      setenv "PROXY_SSH_HOST_ALIAS" (arg_ssh_host_alias args) common environ
    else
      setenv "PROXY_SSH_HOST" (arg_ssh_host args)
        (setenv "PROXY_SSH_USERNAME" (arg_ssh_username args)
           (fun environ =>
              if Py.truthy (arg_ssh_key_path args)
              then setenv "PROXY_SSH_KEY_PATH" (arg_ssh_key_path args)
                     common environ
              else common environ))
        environ.

(** The value of the decimal digits [d] read after the value [acc]. *)
Fixpoint uint_value (acc : Z) (d : Decimal.uint) : Z :=
  match d with
  | Decimal.Nil => acc
  | Decimal.D0 d => uint_value (10 * acc + 0) d
  | Decimal.D1 d => uint_value (10 * acc + 1) d
  | Decimal.D2 d => uint_value (10 * acc + 2) d
  | Decimal.D3 d => uint_value (10 * acc + 3) d
  | Decimal.D4 d => uint_value (10 * acc + 4) d
  | Decimal.D5 d => uint_value (10 * acc + 5) d
  | Decimal.D6 d => uint_value (10 * acc + 6) d
  | Decimal.D7 d => uint_value (10 * acc + 7) d
  | Decimal.D8 d => uint_value (10 * acc + 8) d
  | Decimal.D9 d => uint_value (10 * acc + 9) d
  end.

(** No character of [s] is white space. *)
Fixpoint no_space (s : string) : bool :=
  match s with
  | EmptyString => true
  | String c s' => (negb (Py.isspace c) && no_space s')%bool
  end.

(** Command lines and configuration entries used below. *)
Definition host_args : Namespace :=
  {| arg_ssh_host_alias := None; arg_ssh_host := Some "files.example.org";
     arg_ssh_username := Some "grace"; arg_ssh_key_path := None;
     arg_data_path := "/srv/data"; arg_local_port := 8000;
     arg_remote_port := 8001; arg_fastapi_port := 5001 |}.

Definition alias_args : Namespace :=
  {| arg_ssh_host_alias := Some "lab"; arg_ssh_host := None;
     arg_ssh_username := Some "ignored"; arg_ssh_key_path := Some "/tmp/key";
     arg_data_path := "/srv/data"; arg_local_port := 8000;
     arg_remote_port := 8001; arg_fastapi_port := 5001 |}.

Definition host_without_username_args : Namespace :=
  {| arg_ssh_host_alias := None; arg_ssh_host := Some "files.example.org";
     arg_ssh_username := None; arg_ssh_key_path := None;
     arg_data_path := "/srv/data"; arg_local_port := 8000;
     arg_remote_port := 8001; arg_fastapi_port := 5001 |}.

Definition empty_alias_args : Namespace :=
  {| arg_ssh_host_alias := Some ""; arg_ssh_host := None;
     arg_ssh_username := None; arg_ssh_key_path := None;
     arg_data_path := "/srv/data"; arg_local_port := 8000;
     arg_remote_port := 8001; arg_fastapi_port := 5001 |}.

(** An SSH configuration whose entry for every alias has the port [prt]. *)
Definition ssh_config_with_port (prt : string) : SSHConfigProvider :=
  {| lookup := fun a =>
       {| hc_hostname := Some a; hc_user := Some "ada";
          hc_identityfile := None; hc_port := Some prt |} |}.

(** An upstream answer with no body. *)
Definition upstream_empty : httpx.Wire :=
  {| httpx.wire_status := 200;
     httpx.wire_headers := [("Content-Type", "text/plain"); ("Content-Length", "0")];
     httpx.wire_body := [] |}.

Definition invalid_url : Py.exn := Py.Exn Py.InvalidURL "Invalid port: 'x'".

(** * Properties *)

(** ** The SSH configuration resolver *)

Lemma int_of_str_raises (t : string) (e : Py.exn) :
  Py.int_of_str t = Py.Raise e -> Py.exn_class e = Py.ValueError.
Proof.
  unfold Py.int_of_str.
  destruct (Py.strip t) as [|[[] [] [] [] [] [] [] []] u];
    repeat match goal with
           | |- context [Py.parse_digits ?a ?b ?c] =>
               destruct (Py.parse_digits a b c)
           end;
    intros H; inversion H; reflexivity.
Qed.

Lemma get_ssh_config_raises (p : SSHConfigProvider) (a : string) (e : Py.exn) :
  get_ssh_config p a = Py.Raise e ->
  Py.exn_class e = Py.IndexError \/ Py.exn_class e = Py.ValueError.
Proof.
  unfold get_ssh_config, first_identityfile, port_of.
  destruct (hc_identityfile (lookup p a)) as [[|f fs]|]; simpl;
    try (intros H; inversion H; left; reflexivity);
    (destruct (hc_port (lookup p a)) as [t|]; simpl; [|discriminate];
     destruct (Py.int_of_str t) eqn:Hint; simpl; [discriminate|];
     intros H; inversion H; subst; right; eapply int_of_str_raises; eassumption).
Qed.

Lemma get_ssh_config_fields (p : SSHConfigProvider) (a : string) (c : SSHConfig) :
  get_ssh_config p a = Py.Ok c ->
  hostname c = Some (Py.get_default (hc_hostname (lookup p a)) a) /\
  username c = hc_user (lookup p a).
Proof.
  unfold get_ssh_config.
  destruct (first_identityfile (lookup p a)); simpl; [|discriminate].
  destruct (port_of (lookup p a)); simpl; [|discriminate].
  intros H; inversion H; subst; simpl. split; reflexivity.
Qed.

(** C6, as the spec states it, fails: with neither an alias nor explicit
    parameters the resolver returns a spec whose hostname and username are
    both missing; it does not fail. *)
Lemma resolver_missing_fields_cex :
  ~ match _get_ssh_config bare_settings no_ssh_config_file with
    | Py.Ok c => complete c
    | Py.Raise _ => True
    end.
Proof.
  simpl. intros [H _]. discriminate H.
Qed.

(** C6, amended: the resolver validates nothing and has no ConfigError.
    Without a non-empty alias it returns the supplied hostname, username and
    key path as they are, with port 22.  With an alias it returns the
    entry's hostname (the alias itself when the entry has none) and the
    entry's user, and can only fail with the IndexError or ValueError of a
    malformed entry.  So the spec is complete exactly when the values it was
    given are. *)
Theorem resolver_validates_nothing (s : Settings) (p : SSHConfigProvider) :
  match ssh_host_alias s, _get_ssh_config s p with
  | Some a, Py.Ok c =>
      if String.eqb a "" then
        c = {| hostname := ssh_host s; username := ssh_username s;
               key_filename := ssh_key_path s; port := 22 |}
      else
        hostname c = Some (Py.get_default (hc_hostname (lookup p a)) a) /\
        username c = hc_user (lookup p a)
  | None, Py.Ok c =>
      c = {| hostname := ssh_host s; username := ssh_username s;
             key_filename := ssh_key_path s; port := 22 |}
  | Some a, Py.Raise e =>
      a <> "" /\
      (Py.exn_class e = Py.IndexError \/ Py.exn_class e = Py.ValueError)
  | None, Py.Raise _ => False
  end.
Proof.
  unfold _get_ssh_config.
  destruct (ssh_host_alias s) as [a|]; simpl; [|reflexivity].
  destruct (String.eqb a "") eqn:Ha; simpl; [reflexivity|].
  destruct (get_ssh_config p a) as [c|e] eqn:Hc.
  - apply get_ssh_config_fields; assumption.
  - split.
    + intros ->. discriminate Ha.
    + eapply get_ssh_config_raises; eassumption.
Qed.

Example resolver_explicit :
  _get_ssh_config explicit_settings no_ssh_config_file
  = Py.Ok {| hostname := Some "files.example.org"; username := Some "grace";
             key_filename := None; port := 22 |}.
Proof. reflexivity. Qed.

Example resolver_alias :
  _get_ssh_config alias_settings lab_ssh_config_file
  = Py.Ok {| hostname := Some "lab.example.org"; username := Some "ada";
             key_filename := Some "/home/ada/.ssh/id_ed25519";
             port := 2222 |}.
Proof. reflexivity. Qed.

(** An alias without a [User] line resolves to a spec with no username. *)
Example resolver_alias_without_user :
  _get_ssh_config
    {| ssh_host_alias := Some "archive"; ssh_host := None;
       ssh_username := None; ssh_key_path := None; data_path := "/srv/data";
       local_port := 8000; remote_port := 8001; fastapi_port := 5000 |}
    lab_ssh_config_file
  = Py.Ok {| hostname := Some "archive"; username := None;
             key_filename := None; port := 22 |}.
Proof. reflexivity. Qed.

(** ** The health endpoint *)

(** Whenever the alias is not the empty string, [using_ssh_config] says
    which resolution path [_get_ssh_config] took, and the reported hostname
    and username are the resolved ones. *)
Lemma health_reflects_configuration (s : Settings) (p : SSHConfigProvider)
    (svc : DataProxyService) :
  ssh_host_alias s <> Some "" ->
  init s p = Py.Ok svc ->
  exists h, fst (health_check {| proxy_service := Some svc |}) = Return h /\
    using_ssh_config (connection h) = Py.truthy (ssh_host_alias s) /\
    _get_ssh_config s p
    = Py.Ok {| hostname := conn_hostname (connection h);
               username := conn_username (connection h);
               key_filename := key_filename (ssh_config svc);
               port := port (ssh_config svc) |}.
Proof.
  intros Hne. unfold init.
  destruct (_get_ssh_config s p) as [c|e] eqn:Hc; simpl; [|discriminate].
  intros H; inversion H; subst; clear H. simpl.
  eexists; split; [reflexivity|]. simpl. split.
  - destruct (ssh_host_alias s) as [a|]; simpl; [|reflexivity].
    destruct (String.eqb_spec a ""); [congruence|reflexivity].
  - destruct c; reflexivity.
Qed.

(** C7 fails on the code when [PROXY_SSH_HOST_ALIAS] is set to the empty
    string: [_get_ssh_config] tests the alias for truth and takes the
    explicit parameters, while [health_check] tests it against [None] and
    reports [using_ssh_config = true]. *)
Theorem health_empty_alias_reports_alias_path :
  exists svc calls,
    startup_event empty_alias_settings no_ssh_config_file all_fine
      {| proxy_service := None |}
    = (Py.Ok tt, {| proxy_service := Some svc |}, calls) /\
    Py.truthy (ssh_host_alias empty_alias_settings) = false /\
    ssh_config svc
    = {| hostname := ssh_host empty_alias_settings;
         username := ssh_username empty_alias_settings;
         key_filename := ssh_key_path empty_alias_settings; port := 22 |} /\
    fst (health_check {| proxy_service := Some svc |})
    = Return {| status := "OK";
                connection :=
                  {| conn_hostname := Some "files.example.org";
                     conn_username := Some "grace";
                     using_ssh_config := true |} |}.
Proof.
  eexists _, _. split; [reflexivity|]. repeat split.
Qed.

(** ** Start and stop *)

Ltac run_method :=
  unfold start, start_body, stop, acquire, Method.try_except, Method.bind,
    Method.self, Method.assign, Method.call, Method.check, Method.raise,
    Method.ret; simpl.

Lemma stop_runs (s : DataProxyService) (tr : list event) :
  stop (s, tr) = (Py.Ok tt, (stopped s, (tr ++ stop_calls s)%list)).
Proof.
  destruct s as [cfg_s [t|] [c|] http p cfg];
    unfold stopped, stop_calls; run_method;
    rewrite <- ?app_assoc; reflexivity.
Qed.

Lemma stopped_released (s : DataProxyService) : released (stopped s).
Proof.
  unfold released, stopped; simpl. split; [reflexivity|]. split.
  - intros c. destruct (ssh_client s); intros H; inversion H; reflexivity.
  - intros t. destruct (tunnel s); intros H; inversion H; reflexivity.
Qed.

Lemma stopped_stopped (s : DataProxyService) : stopped (stopped s) = stopped s.
Proof.
  unfold stopped; simpl. destruct (ssh_client s), (tunnel s); reflexivity.
Qed.

Lemma start_unfold (env : Remote) (st : Method.state) :
  start env st
  = match start_body env st with
    | (Py.Ok a, st') => (Py.Ok a, st')
    | (Py.Raise e, (s1, tr1)) =>
        (Py.Raise e, (stopped s1, (tr1 ++ stop_calls s1)%list))
    end.
Proof.
  unfold start, Method.try_except.
  destruct (start_body env st) as [[a|e] [s1 tr1]]; [reflexivity|].
  unfold Method.bind. rewrite stop_runs. reflexivity.
Qed.

Lemma start_body_outcome (env : Remote) (s : DataProxyService) (tr : list event) :
  fst (start_body env (s, tr))
  = match first_failure env s with
    | Some e => Py.Raise e
    | None => Py.Ok tt
    end.
Proof.
  unfold first_failure. run_method.
  destruct (on_tunnel_init env); simpl; [reflexivity|].
  destruct (on_tunnel_start env); simpl; [|reflexivity].
  destruct (on_connect env); simpl; [|reflexivity].
  destruct (on_exec env (kill_cmd (remote_port (settings s)))); simpl;
    [reflexivity|].
  destruct (on_exec env (launch_cmd (data_path (settings s))
                                    (remote_port (settings s)))); reflexivity.
Qed.

(** C9: when a startup step raises, [start] runs the whole of [stop] on the
    service as the failed step left it, every resource the service holds is
    released, and only then the step's own error reaches the caller. *)
Theorem start_failure_runs_stop (env : Remote) (s : DataProxyService)
    (tr : list event) (e : Py.exn) :
  first_failure env s = Some e ->
  exists s1 tr1,
    start_body env (s, tr) = (Py.Raise e, (s1, tr1)) /\
    stop (s1, tr1) = (Py.Ok tt, (stopped s1, (tr1 ++ stop_calls s1)%list)) /\
    start env (s, tr) = (Py.Raise e, (stopped s1, (tr1 ++ stop_calls s1)%list)) /\
    released (stopped s1).
Proof.
  intros Hfail.
  pose proof (start_body_outcome env s tr) as Hout.
  rewrite Hfail in Hout.
  destruct (start_body env (s, tr)) as [r [s1 tr1]] eqn:Hbody.
  simpl in Hout. subst r.
  exists s1, tr1. split; [reflexivity|]. split; [apply stop_runs|]. split.
  - rewrite start_unfold, Hbody. reflexivity.
  - apply stopped_released.
Qed.

(** The theorem at a refused SSH login on a service that was never started. *)
Lemma start_failure_runs_stop_witness :
  exists s1 tr1,
    start_body login_refused (explicit_service, []) = (Py.Raise (Py.Exn Py.SSHException "Authentication failed."), (s1, tr1)) /\
    stop (s1, tr1) = (Py.Ok tt, (stopped s1, (tr1 ++ stop_calls s1)%list)) /\
    start login_refused (explicit_service, [])
    = (Py.Raise (Py.Exn Py.SSHException "Authentication failed."),
       (stopped s1, (tr1 ++ stop_calls s1)%list)) /\
    released (stopped s1).
Proof.
  apply (start_failure_runs_stop login_refused explicit_service []).
  reflexivity.
Defined.

(** The refused login, step by step: the tunnel was up and the client held
    its socket; both are closed, in [stop]'s order, before the raise. *)
Example start_login_refused :
  start login_refused (explicit_service, [])
  = (Py.Raise (Py.Exn Py.SSHException "Authentication failed."),
     ({| settings := explicit_settings;
         tunnel := Some {| tunnel_alive := false |};
         ssh_client := Some {| ssh_open := false |};
         client_open := false;
         ssh_config_provider := no_ssh_config_file;
         ssh_config := ssh_config explicit_service |},
      [SSHTunnelForwarder_init (Some "files.example.org") (Some "grace") None
         22 9001 9000;
       tunnel_start; SSHClient_init; set_missing_host_key_policy;
       ssh_connect (Some "files.example.org") (Some "grace") None 22;
       client_aclose; ssh_close; tunnel_stop])).
Proof. reflexivity. Qed.

(** A start in which nothing fails returns, holding the tunnel and the SSH
    session. *)
Lemma start_success (env : Remote) (s : DataProxyService) (tr : list event) :
  first_failure env s = None ->
  exists s' tr', start env (s, tr) = (Py.Ok tt, (s', tr')) /\
    tunnel s' = Some {| tunnel_alive := true |} /\
    ssh_client s' = Some {| ssh_open := true |} /\
    client_open s' = client_open s.
Proof.
  unfold first_failure. run_method.
  destruct (on_tunnel_init env); simpl; [discriminate|].
  destruct (on_tunnel_start env); simpl; [|discriminate].
  destruct (on_connect env); simpl; [|discriminate].
  destruct (on_exec env (kill_cmd (remote_port (settings s)))); simpl;
    [discriminate|].
  destruct (on_exec env (launch_cmd (data_path (settings s))
                                    (remote_port (settings s)))); simpl;
    [discriminate|].
  intros _. eexists _, _. split; [reflexivity|]. simpl. repeat split.
Qed.

(** C10: [stop] returns on every service instance, whatever [start] did or
    did not do to it.  It calls [aclose] on the HTTP client, then [close] on
    the SSH client and [stop] on the tunnel whenever the service has them,
    and leaves the HTTP client, the SSH session and the tunnel closed, so
    that no resource of the service is held.  A second [stop] returns as
    well, makes the same calls on the closed objects and leaves the service
    exactly as the first one left it. *)
Theorem stop_idempotent_total (s : DataProxyService) (tr : list event) :
  exists s1 calls,
    stop (s, tr) = (Py.Ok tt, (s1, (tr ++ calls)%list)) /\
    stop (s1, (tr ++ calls)%list)
    = (Py.Ok tt, (s1, ((tr ++ calls) ++ calls)%list)) /\
    calls
    = (client_aclose
       :: (if Py.is_not_None (ssh_client s) then [ssh_close] else [])
       ++ (if Py.is_not_None (tunnel s) then [tunnel_stop] else []))%list /\
    client_open s1 = false /\
    ssh_client s1
    = (if Py.is_not_None (ssh_client s)
       then Some {| ssh_open := false |} else None) /\
    tunnel s1
    = (if Py.is_not_None (tunnel s)
       then Some {| tunnel_alive := false |} else None) /\
    released s1 /\
    settings s1 = settings s /\
    ssh_config s1 = ssh_config s /\
    ssh_config_provider s1 = ssh_config_provider s.
Proof.
  exists (stopped s), (stop_calls s).
  split; [apply stop_runs|].
  split.
  { rewrite stop_runs, stopped_stopped. f_equal. f_equal. f_equal.
    unfold stop_calls, stopped; simpl.
    destruct (ssh_client s), (tunnel s); reflexivity. }
  split.
  { unfold stop_calls. destruct (ssh_client s), (tunnel s); reflexivity. }
  split; [reflexivity|].
  split; [unfold stopped; simpl; destruct (ssh_client s); reflexivity|].
  split; [unfold stopped; simpl; destruct (tunnel s); reflexivity|].
  split; [apply stopped_released|].
  repeat split.
Qed.

(** After a start in which nothing failed, [stop] closes the session and the
    tunnel that [start] opened. *)
Example stop_after_start :
  let started := fst (snd (start all_fine (explicit_service, []))) in
  (tunnel started, ssh_client started, client_open started)
  = (Some {| tunnel_alive := true |}, Some {| ssh_open := true |}, true) /\
  stop (started, [])
  = (Py.Ok tt,
     ({| settings := explicit_settings;
         tunnel := Some {| tunnel_alive := false |};
         ssh_client := Some {| ssh_open := false |};
         client_open := false;
         ssh_config_provider := no_ssh_config_file;
         ssh_config := ssh_config explicit_service |},
      [client_aclose; ssh_close; tunnel_stop])).
Proof. split; reflexivity. Qed.

(** [stop] on an instance whose [start] never ran closes the HTTP client
    and touches nothing else. *)
Example stop_never_started :
  stop (explicit_service, [])
  = (Py.Ok tt, (set_client_open false explicit_service, [client_aclose])).
Proof. reflexivity. Qed.

(** ** The remote commands *)

Lemma pkill_needs_first_char (p : ascii) (pattern cmdline : string) :
  Ascii.eqb p "." = false ->
  avoids p cmdline = true ->
  pkill_f_matches (String p pattern) cmdline = false.
Proof.
  intros Hdot. induction cmdline as [|c rest IH]; simpl; [reflexivity|].
  rewrite Hdot. simpl.
  intros H. apply andb_prop in H as [Hc Hrest].
  apply negb_true_iff in Hc. rewrite Hc. simpl. apply IH, Hrest.
Qed.

Lemma string_of_uint_avoids_p (u : Decimal.uint) :
  avoids "p" (NilEmpty.string_of_uint u) = true.
Proof. induction u; simpl; auto. Qed.

Lemma str_of_int_avoids_p (n : Z) : avoids "p" (Py.str_of_int n) = true.
Proof.
  unfold Py.str_of_int.
  destruct (Z.to_int n); simpl; apply string_of_uint_avoids_p.
Qed.

(** C8 fails on the code: [start] does issue the [pkill] before the launch,
    but its pattern says [python -m] while the server it launches runs as
    [python3 -m], so for every port the pattern does not match the command
    line of a server this controller launched, and that server is not
    terminated. *)
Theorem kill_pattern_misses_launched_server (remote_port : Z) :
  pkill_f_matches (kill_pattern remote_port) (server_cmdline remote_port)
  = false.
Proof.
  unfold kill_pattern, server_cmdline.
  generalize (str_of_int_avoids_p remote_port).
  generalize (Py.str_of_int remote_port) as digits. intros digits Hdigits.
  simpl.
  change (pkill_f_matches (String "p" ("ython -m http.server " +:+ digits))
            digits = false).
  apply pkill_needs_first_char; [reflexivity | exact Hdigits].
Qed.

(** The calls of a start in which nothing fails: the [pkill], then the
    launch. *)
Example start_all_fine_calls :
  snd (snd (start all_fine (explicit_service, [])))
  = [SSHTunnelForwarder_init (Some "files.example.org") (Some "grace") None
       22 9001 9000;
     tunnel_start; SSHClient_init; set_missing_host_key_policy;
     ssh_connect (Some "files.example.org") (Some "grace") None 22;
     exec_command "pkill -f 'python -m http.server 9001'";
     exec_command
       "cd /srv/data && python3 -m http.server 9001 > /dev/null 2>&1 &"].
Proof. reflexivity. Qed.

Example pkill_old_server_survives :
  pkill_f_matches "python -m http.server 9001" "python3 -m http.server 9001"
  = false.
Proof. reflexivity. Qed.

Example pkill_would_match_python :
  pkill_f_matches "python -m http.server 9001" "python -m http.server 9001"
  = true.
Proof. reflexivity. Qed.

(** ** httpx *)

Lemma append_assoc (a b c : string) : (a +:+ b) +:+ c = a +:+ b +:+ c.
Proof.
  induction a as [|x a IH]; [reflexivity|].
  change (String x ((a +:+ b) +:+ c) = String x (a +:+ b +:+ c)).
  rewrite IH. reflexivity.
Qed.

Lemma ascii_lower_idem (c : ascii) :
  Py.ascii_lower (Py.ascii_lower c) = Py.ascii_lower c.
Proof. destruct c as [[] [] [] [] [] [] [] []]; reflexivity. Qed.

Lemma lower_idem (s : string) : Py.lower (Py.lower s) = Py.lower s.
Proof.
  induction s as [|c s IH]; simpl; [reflexivity|].
  rewrite ascii_lower_idem, IH. reflexivity.
Qed.

Lemma join_snoc (sep : string) (l : list string) (v : string) :
  Py.join sep (l ++ [v])%list
  = match l with
    | [] => v
    | _ :: _ => Py.join sep l +:+ sep +:+ v
    end.
Proof.
  induction l as [|x l IH]; [reflexivity|].
  change (Py.join sep ((x :: l) ++ [v])%list)
    with (Py.join sep (x :: (l ++ [v])%list)).
  destruct l as [|y l].
  - reflexivity.
  - change (Py.join sep (x :: ((y :: l) ++ [v])%list))
      with (x +:+ sep +:+ Py.join sep ((y :: l) ++ [v])%list).
    rewrite IH.
    change (Py.join sep (x :: y :: l)) with (x +:+ sep +:+ Py.join sep (y :: l)).
    rewrite !append_assoc. reflexivity.
Qed.

Lemma values_of_snoc (h : httpx.Headers) (kv : string * string) (key : string) :
  httpx.values_of (h ++ [kv])%list key
  = (httpx.values_of h key
     ++ if decide (Py.lower (fst kv) = Py.lower key) then [snd kv] else [])%list.
Proof.
  unfold httpx.values_of.
  rewrite filter_app, fmap_app, filter_cons, filter_nil.
  destruct (decide (Py.lower (fst kv) = Py.lower key)); reflexivity.
Qed.

Lemma get_snoc_other (h : httpx.Headers) (kv : string * string) (key : string) :
  Py.lower (fst kv) <> Py.lower key ->
  httpx.get (h ++ [kv])%list key = httpx.get h key.
Proof.
  intros Hne. unfold httpx.get. rewrite values_of_snoc.
  destruct (decide (Py.lower (fst kv) = Py.lower key)); [contradiction|].
  rewrite app_nil_r. reflexivity.
Qed.

Lemma get_snoc_same (h : httpx.Headers) (kv : string * string) (key : string) :
  Py.lower (fst kv) = Py.lower key ->
  httpx.get (h ++ [kv])%list key
  = Some match httpx.get h key with
         | Some old => old +:+ ", " +:+ snd kv
         | None => snd kv
         end.
Proof.
  intros He. unfold httpx.get. rewrite values_of_snoc.
  destruct (decide (Py.lower (fst kv) = Py.lower key)); [|contradiction].
  destruct (httpx.values_of h key) as [|v vs] eqn:Hvs.
  - reflexivity.
  - change (((v :: vs) ++ [snd kv])%list) with (v :: (vs ++ [snd kv])%list).
    f_equal. apply (join_snoc ", " (v :: vs)).
Qed.

(** The items dictionary holds, under each lower-cased name, what [get]
    answers for that name, and nothing under any other key. *)
Lemma items_lookup (h : httpx.Headers) (key : string) :
  httpx.items h !! key
  = if decide (Py.lower key = key) then httpx.get h key else None.
Proof.
  induction h as [|kv h IH] using rev_ind.
  - unfold httpx.items; simpl. rewrite lookup_empty.
    destruct (decide (Py.lower key = key)); reflexivity.
  - unfold httpx.items in *. rewrite foldl_snoc.
    set (d := foldl httpx.add_item ∅ h) in *.
    unfold httpx.add_item.
    destruct (decide (Py.lower (fst kv) = key)) as [Hk|Hk].
    + assert (Hlow : Py.lower key = key) by (rewrite <- Hk; apply lower_idem).
      destruct (decide (Py.lower key = key)); [|contradiction].
      rewrite get_snoc_same by congruence.
      rewrite <- Hk in IH. rewrite Hk in IH at 2. 
      rewrite IH.
      destruct (httpx.get h key); rewrite Hk, lookup_insert_eq; reflexivity.
    + assert (Hother : (match d !! Py.lower (fst kv) with
                        | Some old =>
                            <[Py.lower (fst kv) := old +:+ ", " +:+ snd kv]> d
                        | None => <[Py.lower (fst kv) := snd kv]> d
                        end) !! key = d !! key).
      { destruct (d !! Py.lower (fst kv)); apply lookup_insert_ne; exact Hk. }
      rewrite Hother, IH.
      destruct (decide (Py.lower key = key)) as [Hlow|]; [|reflexivity].
      rewrite get_snoc_other; [reflexivity|]. rewrite Hlow. exact Hk.
Qed.

Lemma values_of_lower (h : httpx.Headers) (k : string) :
  httpx.values_of h (Py.lower k) = httpx.values_of h k.
Proof. unfold httpx.values_of. rewrite lower_idem. reflexivity. Qed.

Lemma range_fuel_done (fuel start stop step : nat) :
  (stop <= start)%nat -> httpx.range_fuel fuel start stop step = [].
Proof.
  intros H. destruct fuel; simpl; [reflexivity|].
  destruct (Nat.ltb_spec start stop); [lia|reflexivity].
Qed.

(** A response whose body was read yields it as one chunk. *)
Lemma aiter_bytes_whole (r : httpx.Response) :
  httpx.content r <> [] -> httpx.aiter_bytes r = [httpx.content r].
Proof.
  unfold httpx.aiter_bytes, httpx.range, httpx.slice.
  destruct (httpx.content r) as [|b bs] eqn:Hc; [congruence|]. intros _.
  cbn [List.length httpx.range_fuel Nat.ltb Nat.leb map].
  rewrite range_fuel_done by (simpl; lia).
  simpl. rewrite take_ge by lia. reflexivity.
Qed.

Lemma aiter_bytes_empty (r : httpx.Response) :
  httpx.content r = [] -> httpx.aiter_bytes r = [].
Proof.
  unfold httpx.aiter_bytes. intros ->. reflexivity.
Qed.

Lemma aiter_bytes_concat (r : httpx.Response) :
  concat (httpx.aiter_bytes r) = httpx.content r.
Proof.
  destruct (httpx.content r) as [|b bs] eqn:Hc.
  - rewrite aiter_bytes_empty by assumption. reflexivity.
  - rewrite aiter_bytes_whole by congruence. simpl.
    rewrite app_nil_r. assumption.
Qed.

Lemma transport_error_is_HTTPError (e : Py.exn) :
  Py.isinstance e Py.TransportError = true ->
  Py.isinstance e Py.HTTPError = true.
Proof.
  unfold Py.isinstance. destruct (Py.exn_class e); simpl;
    intros H; try reflexivity; discriminate H.
Qed.

Lemma concat_repeat_single {A} (x : A) (n : nat) :
  concat (repeat [x] n) = repeat x n.
Proof. induction n; simpl; [reflexivity|]. rewrite IHn. reflexivity. Qed.

(** ** The data endpoint *)

Section ProxyData.

Variable app : App.
Variable svc : DataProxyService.
Variable upstream : string -> Py.result httpx.Wire.
Variable filename : string.

Hypothesis service_started : proxy_service app = Some svc.

Let url : string := url_of (local_port (settings svc)) filename.

Lemma proxy_data_fetch_ok (w : httpx.Wire) :
  upstream url = Py.Ok w ->
  proxy_data app upstream filename
  = if Z.eqb (httpx.wire_status w) 404
    then (HTTPException 404 "File not found", app)
    else
      (Return
         {| body_iterator := httpx.aiter_bytes (fetched w);
            status_code := 200;
            media_type := httpx.get (httpx.wire_headers w) "content-type";
            headers :=
              filter (fun kv => Py.lower (fst kv) <> "content-length")
                     (httpx.items (httpx.wire_headers w)) |},
       app).
Proof.
  intros Hup. unfold proxy_data. rewrite service_started.
  unfold httpx.client_get. fold url. rewrite Hup. reflexivity.
Qed.

Lemma proxy_data_fetch_raises (e : Py.exn) :
  upstream url = Py.Raise e ->
  proxy_data app upstream filename
  = if Py.isinstance e Py.HTTPError
    then (HTTPException 500 (Py.exn_str e), app)
    else (Uncaught e, app).
Proof.
  intros Hup. unfold proxy_data. rewrite service_started.
  unfold httpx.client_get. fold url. rewrite Hup. reflexivity.
Qed.

(** C2: when the upstream server answers 404, the handler raises
    [HTTPException(404, "File not found")], which the caller receives as
    a 404 response with that detail. *)
Theorem proxy_data_upstream_404 (w : httpx.Wire) :
  upstream url = Py.Ok w ->
  httpx.wire_status w = 404 ->
  fst (proxy_data app upstream filename)
  = HTTPException 404 "File not found" /\
  caller_sees status_code (fst (proxy_data app upstream filename))
  = (404, Detail "File not found").
Proof.
  intros Hup Hstatus. rewrite (proxy_data_fetch_ok w Hup), Hstatus.
  split; reflexivity.
Qed.

(** C3: on a successful fetch the response has the upstream content-type
    as its media type; every upstream header line whose name is not
    content-length is in its headers, under the lower-cased name and with
    the values of the lines of that name joined by a comma; and no key
    that spells content-length, in any case, is in its headers. *)
Theorem proxy_data_forwards_headers (w : httpx.Wire) :
  upstream url = Py.Ok w ->
  httpx.wire_status w <> 404 ->
  exists r,
    fst (proxy_data app upstream filename) = Return r /\
    media_type r = httpx.get (httpx.wire_headers w) "content-type" /\
    (forall k v,
        (k, v) ∈ httpx.wire_headers w ->
        Py.lower k <> "content-length" ->
        v ∈ httpx.values_of (httpx.wire_headers w) k /\
        headers r !! Py.lower k
        = Some (Py.join ", " (httpx.values_of (httpx.wire_headers w) k))) /\
    (forall k, Py.lower k = "content-length" -> headers r !! k = None).
Proof.
  intros Hup Hstatus. rewrite (proxy_data_fetch_ok w Hup).
  apply Z.eqb_neq in Hstatus. rewrite Hstatus.
  eexists. split; [reflexivity|]. simpl. split; [reflexivity|]. split.
  - intros k v Hin Hk.
    assert (Hv : v ∈ httpx.values_of (httpx.wire_headers w) k).
    { unfold httpx.values_of.
      apply (list_elem_of_fmap_2 snd _ (k, v)).
      apply list_elem_of_filter. split; [reflexivity | exact Hin]. }
    split; [exact Hv|].
    apply map_lookup_filter_Some. split.
    + rewrite items_lookup, lower_idem.
      destruct (decide (Py.lower k = Py.lower k)); [|contradiction].
      unfold httpx.get. rewrite values_of_lower.
      destruct (httpx.values_of (httpx.wire_headers w) k) eqn:Hvs.
      * inversion Hv.
      * reflexivity.
    + simpl. rewrite lower_idem. exact Hk.
  - intros k Hk. apply map_lookup_filter_None. right.
    intros x _ Hkeep. simpl in Hkeep. contradiction.
Qed.

(** C4: when the fetch fails with a transport error, the handler raises
    [HTTPException(500, str(e))], which the caller receives as a 500
    response with the error's text; the global service is left as it was,
    so every later request is handled as if this one had not happened. *)
Theorem proxy_data_transport_error_500 (e : Py.exn) :
  upstream url = Py.Raise e ->
  Py.isinstance e Py.TransportError = true ->
  proxy_data app upstream filename
  = (HTTPException 500 (Py.exn_str e), app) /\
  caller_sees status_code (fst (proxy_data app upstream filename))
  = (500, Detail (Py.exn_str e)) /\
  (forall upstream' filename',
      proxy_data (snd (proxy_data app upstream filename)) upstream' filename'
      = proxy_data app upstream' filename').
Proof.
  intros Hup Htransport. rewrite (proxy_data_fetch_raises e Hup).
  rewrite (transport_error_is_HTTPError e Htransport).
  repeat split.
Qed.

(** C5: whatever status other than 404 the upstream server answers with,
    the handler returns a response with status 200 whose chunks make up
    the upstream body; the upstream status is not passed on. *)
Theorem proxy_data_other_status_200 (w : httpx.Wire) :
  upstream url = Py.Ok w ->
  httpx.wire_status w <> 404 ->
  exists r,
    fst (proxy_data app upstream filename) = Return r /\
    status_code r = 200 /\
    concat (body_iterator r) = concat (httpx.wire_body w) /\
    caller_sees status_code (fst (proxy_data app upstream filename))
    = (200, Body r).
Proof.
  intros Hup Hstatus. rewrite (proxy_data_fetch_ok w Hup).
  apply Z.eqb_neq in Hstatus. rewrite Hstatus.
  eexists. split; [reflexivity|]. simpl. split; [reflexivity|].
  split; [|reflexivity]. apply (aiter_bytes_concat (fetched w)).
Qed.

(** The whole body is read before the handler builds its response, and
    the response's iterator hands it over as one chunk. *)
Lemma proxy_data_one_chunk (w : httpx.Wire) :
  upstream url = Py.Ok w ->
  httpx.wire_status w <> 404 ->
  concat (httpx.wire_body w) <> [] ->
  httpx.client_get upstream url = Py.Ok (fetched w) /\
  exists r,
    fst (proxy_data app upstream filename) = Return r /\
    body_iterator r = [concat (httpx.wire_body w)].
Proof.
  intros Hup Hstatus Hbody. split.
  - unfold httpx.client_get. rewrite Hup. reflexivity.
  - rewrite (proxy_data_fetch_ok w Hup).
    apply Z.eqb_neq in Hstatus. rewrite Hstatus.
    eexists. split; [reflexivity|]. simpl.
    apply (aiter_bytes_whole (fetched w)). exact Hbody.
Qed.

End ProxyData.

(** The theorem at a request for a file the upstream server does not have. *)
Lemma proxy_data_upstream_404_witness :
  fst (proxy_data explicit_app (fun _ => Py.Ok upstream_404) "missing.bin")
  = HTTPException 404 "File not found" /\
  caller_sees status_code
    (fst (proxy_data explicit_app (fun _ => Py.Ok upstream_404) "missing.bin"))
  = (404, Detail "File not found").
Proof.
  apply (proxy_data_upstream_404 explicit_app explicit_service
           (fun _ => Py.Ok upstream_404) "missing.bin" eq_refl upstream_404);
    reflexivity.
Defined.

(** The theorem at an upstream answer with a content-length and two cookie
    lines. *)
Lemma proxy_data_forwards_headers_witness :
  exists r,
    fst (proxy_data explicit_app (fun _ => Py.Ok upstream_403) "private/")
    = Return r /\
    media_type r = httpx.get (httpx.wire_headers upstream_403) "content-type" /\
    (forall k v,
        (k, v) ∈ httpx.wire_headers upstream_403 ->
        Py.lower k <> "content-length" ->
        v ∈ httpx.values_of (httpx.wire_headers upstream_403) k /\
        headers r !! Py.lower k
        = Some (Py.join ", " (httpx.values_of (httpx.wire_headers upstream_403) k))) /\
    (forall k, Py.lower k = "content-length" -> headers r !! k = None).
Proof.
  apply (proxy_data_forwards_headers explicit_app explicit_service
           (fun _ => Py.Ok upstream_403) "private/" eq_refl upstream_403).
  - reflexivity.
  - simpl. lia.
Defined.

(** The theorem at a refused connection. *)
Lemma proxy_data_transport_error_500_witness :
  proxy_data explicit_app (fun _ => Py.Raise connection_refused) "report.pdf"
  = (HTTPException 500 "All connection attempts failed", explicit_app) /\
  caller_sees status_code
    (fst (proxy_data explicit_app (fun _ => Py.Raise connection_refused)
            "report.pdf"))
  = (500, Detail "All connection attempts failed") /\
  (forall upstream' filename',
      proxy_data
        (snd (proxy_data explicit_app (fun _ => Py.Raise connection_refused)
                "report.pdf")) upstream' filename'
      = proxy_data explicit_app upstream' filename').
Proof.
  apply (proxy_data_transport_error_500 explicit_app explicit_service
           (fun _ => Py.Raise connection_refused) "report.pdf" eq_refl
           connection_refused);
    reflexivity.
Defined.

(** The theorem at an upstream 403. *)
Lemma proxy_data_other_status_200_witness :
  exists r,
    fst (proxy_data explicit_app (fun _ => Py.Ok upstream_403) "private/")
    = Return r /\
    status_code r = 200 /\
    concat (body_iterator r) = concat (httpx.wire_body upstream_403) /\
    caller_sees status_code
      (fst (proxy_data explicit_app (fun _ => Py.Ok upstream_403) "private/"))
    = (200, Body r).
Proof.
  apply (proxy_data_other_status_200 explicit_app explicit_service
           (fun _ => Py.Ok upstream_403) "private/" eq_refl upstream_403).
  - reflexivity.
  - simpl. lia.
Defined.

(** The headers of the 403 answer as the caller gets them: the two cookie
    lines are one entry, and content-length is gone. *)
Example forwarded_headers_403 :
  match fst (proxy_data explicit_app (fun _ => Py.Ok upstream_403) "private/") with
  | Return r =>
      (status_code r, media_type r,
       headers r !! "server", headers r !! "set-cookie",
       headers r !! "content-length", body_iterator r)
      = (200, Some "text/html", Some "SimpleHTTP/0.6", Some "a=1, b=2",
         None, [[Byte.x6e; Byte.x6f]])
  | _ => False
  end.
Proof. vm_compute. reflexivity. Qed.

(** C1 fails on the code: [client.get] has read the whole body before the
    handler builds its response, and the iterator yields that body as a
    single chunk.  For every limit there is a file, sent by the upstream
    server one byte at a time, of which the handler holds more than the
    limit at once and which it hands to the caller in one chunk larger than
    the limit. *)
Theorem proxy_data_holds_whole_body (limit : nat) :
  exists w response r,
    Forall (fun piece => (List.length piece <= 1)%nat) (httpx.wire_body w) /\
    httpx.client_get (fun _ => Py.Ok w) (url_of 9000 "report.pdf")
    = Py.Ok response /\
    (limit < List.length (httpx.content response))%nat /\
    fst (proxy_data explicit_app (fun _ => Py.Ok w) "report.pdf") = Return r /\
    body_iterator r = [httpx.content response].
Proof.
  exists (pdf_in_single_bytes (S limit)), (fetched (pdf_in_single_bytes (S limit))).
  assert (Hbody : concat (httpx.wire_body (pdf_in_single_bytes (S limit)))
                  = repeat Byte.x25 (S limit))
    by apply concat_repeat_single.
  destruct (proxy_data_one_chunk explicit_app explicit_service
              (fun _ => Py.Ok (pdf_in_single_bytes (S limit))) "report.pdf"
              eq_refl (pdf_in_single_bytes (S limit)) eq_refl)
    as [Hget [r [Hr Hchunks]]].
  - simpl. lia.
  - rewrite Hbody. discriminate.
  - exists r. split.
    + apply Forall_forall. intros piece Hin.
      apply list_elem_of_In, repeat_spec in Hin. subst piece. simpl. lia.
    + split; [exact Hget|]. split.
      * unfold fetched. cbn [httpx.content]. rewrite Hbody, repeat_length. lia.
      * split; [exact Hr | exact Hchunks].
Qed.

(** Ten bytes sent one at a time reach the caller as one chunk of ten. *)
Example ten_bytes_one_chunk :
  match fst (proxy_data explicit_app (fun _ => Py.Ok (pdf_in_single_bytes 10))
               "report.pdf") with
  | Return r => body_iterator r = [repeat Byte.x25 10]
  | _ => False
  end.
Proof. vm_compute. reflexivity. Qed.


(** * Further properties of the code *)

(** ** Reading back a port written in decimal *)

Lemma rstrip_no_space (s : string) : no_space s = true -> Py.rstrip s = s.
Proof.
  induction s as [|c s IH]; simpl; [reflexivity|].
  intros H. apply andb_prop in H as [Hc Hs]. rewrite (IH Hs).
  apply negb_true_iff in Hc. rewrite Hc. destruct s; reflexivity.
Qed.

Lemma lstrip_no_space (s : string) : no_space s = true -> Py.lstrip s = s.
Proof.
  destruct s as [|c s]; simpl; [reflexivity|].
  intros H. apply andb_prop in H as [Hc _].
  apply negb_true_iff in Hc. rewrite Hc. reflexivity.
Qed.

Lemma strip_no_space (s : string) : no_space s = true -> Py.strip s = s.
Proof.
  intros H. unfold Py.strip. rewrite (rstrip_no_space s H).
  apply lstrip_no_space, H.
Qed.

Lemma string_of_uint_no_space (d : Decimal.uint) :
  no_space (NilEmpty.string_of_uint d) = true.
Proof. induction d; simpl; auto. Qed.

Ltac eval_digit :=
  match goal with
  | |- context [Py.digit_val ?c] =>
      let v := eval vm_compute in (Py.digit_val c) in
      change (Py.digit_val c) with v
  end.

Lemma parse_digits_uint (d : Decimal.uint) :
  forall (acc : Z) (after_digit : bool),
    after_digit = true \/ d <> Decimal.Nil ->
    Py.parse_digits acc after_digit (NilEmpty.string_of_uint d)
    = Some (uint_value acc d).
Proof.
  induction d; intros acc b Hb;
    cbn [NilEmpty.string_of_uint Py.parse_digits uint_value];
    try (eval_digit; cbv iota beta; apply IHd; left; reflexivity).
  destruct Hb as [-> | Hnil]; [reflexivity | contradiction].
Qed.

Lemma uint_value_pos (d : Decimal.uint) :
  forall a : positive, uint_value (Z.pos a) d = Z.pos (Pos.of_uint_acc d a).
Proof.
  induction d; intros a; cbn [uint_value Pos.of_uint_acc];
    try reflexivity;
    match goal with
    | |- uint_value ?z _ = Z.pos (Pos.of_uint_acc _ ?q) =>
        replace z with (Z.pos q) by lia
    end; apply IHd.
Qed.

Lemma uint_value_0 (d : Decimal.uint) :
  uint_value 0 d = Z.of_N (Pos.of_uint d).
Proof.
  induction d; cbn [uint_value Pos.of_uint]; try reflexivity;
    try (change (10 * 0 + 0) with 0; exact IHd);
    match goal with
    | |- uint_value ?z _ = _ => 
        let v := eval vm_compute in z in change z with v
    end; cbn [Z.of_N]; apply uint_value_pos.
Qed.

Lemma uint_value_to_uint (p : positive) :
  uint_value 0 (Pos.to_uint p) = Z.pos p.
Proof.
  rewrite uint_value_0, DecimalPos.Unsigned.of_to. reflexivity.
Qed.

Lemma int_of_str_unsigned (s : string) (v : Z) :
  Py.strip s = s ->
  Py.parse_digits 0 false s = Some v ->
  match s with
  | String c _ => (negb (Ascii.eqb c "-") && negb (Ascii.eqb c "+"))%bool
  | EmptyString => true
  end = true ->
  Py.int_of_str s = Py.Ok v.
Proof.
  intros Hstrip Hparse Hsign. unfold Py.int_of_str. rewrite Hstrip.
  destruct s as [|c t]; [discriminate Hparse|].
  destruct c as [[] [] [] [] [] [] [] []]; try discriminate Hsign;
    rewrite Hparse; rewrite Z.mul_1_l; reflexivity.
Qed.

(** [int(str(n))] is [n]. *)
Lemma int_of_str_str_of_int (n : Z) : Py.int_of_str (Py.str_of_int n) = Py.Ok n.
Proof.
  unfold Py.str_of_int. destruct n as [|p|p]; [reflexivity| |];
    cbn [Z.to_int NilEmpty.string_of_int];
    pose proof (DecimalPos.Unsigned.to_uint_nonnil p) as Hnil;
    pose proof (parse_digits_uint (Pos.to_uint p) 0 false (or_intror Hnil))
      as Hparse;
    rewrite uint_value_to_uint in Hparse;
    pose proof (string_of_uint_no_space (Pos.to_uint p)) as Hspace.
  - apply int_of_str_unsigned;
      [apply strip_no_space, Hspace | exact Hparse |].
    destruct (Pos.to_uint p); [contradiction | reflexivity ..].
  - unfold Py.int_of_str.
    rewrite strip_no_space by (simpl; exact Hspace).
    cbv iota beta zeta. rewrite Hparse. reflexivity.
Qed.

(** ** More on the resolver *)

(** X1: an alias entry whose port is written as the decimal number [n]
    resolves to port [n]. *)
Theorem get_ssh_config_port_entry (p : SSHConfigProvider) (a : string) (n : Z) :
  hc_port (lookup p a) = Some (Py.str_of_int n) ->
  hc_identityfile (lookup p a) <> Some [] ->
  exists c, get_ssh_config p a = Py.Ok c /\ port c = n.
Proof.
  intros Hport Hid. unfold get_ssh_config, first_identityfile, port_of.
  rewrite Hport, int_of_str_str_of_int.
  destruct (hc_identityfile (lookup p a)) as [[|f fs]|];
    [contradiction | |]; eexists; split; reflexivity.
Qed.

(** The theorem at the entry [Port 2222]. *)
Lemma get_ssh_config_port_entry_witness :
  exists c, get_ssh_config lab_ssh_config_file "lab" = Py.Ok c /\ port c = 2222.
Proof.
  apply (get_ssh_config_port_entry lab_ssh_config_file "lab" 2222).
  - reflexivity.
  - simpl. discriminate.
Defined.

(** X2: when the alias's entry has a port that [int] rejects, constructing
    the service raises that ValueError: nothing validates or defaults the
    port. *)
Theorem init_bad_port_raises (s : Settings) (p : SSHConfigProvider)
    (a t : string) (e : Py.exn) :
  ssh_host_alias s = Some a -> a <> "" ->
  hc_identityfile (lookup p a) <> Some [] ->
  hc_port (lookup p a) = Some t ->
  Py.int_of_str t = Py.Raise e ->
  init s p = Py.Raise e /\ Py.exn_class e = Py.ValueError.
Proof.
  intros Ha Hne Hid Hport Hint. split; [|eapply int_of_str_raises; eassumption].
  unfold init, _get_ssh_config. rewrite Ha. simpl.
  destruct (String.eqb_spec a ""); [contradiction|]. simpl.
  unfold get_ssh_config, first_identityfile, port_of. rewrite Hport, Hint.
  destruct (hc_identityfile (lookup p a)) as [[|f fs]|];
    [contradiction | reflexivity | reflexivity].
Qed.

(** The theorem at the entry [Port ssh]. *)
Lemma init_bad_port_raises_witness :
  init alias_settings (ssh_config_with_port "ssh")
  = Py.Raise (Py.Exn Py.ValueError
                "invalid literal for int() with base 10: 'ssh'") /\
  Py.exn_class
    (Py.Exn Py.ValueError "invalid literal for int() with base 10: 'ssh'")
  = Py.ValueError.
Proof.
  apply (init_bad_port_raises alias_settings (ssh_config_with_port "ssh")
           "lab" "ssh").
  - reflexivity.
  - discriminate.
  - simpl. discriminate.
  - reflexivity.
  - reflexivity.
Defined.

(** X3: when constructing the service raises, [startup_event] raises the
    same error before [start] is reached: none of the calls of [start] and
    [stop] is made and the global stays unset.  Both handlers then end in an
    uncaught AttributeError, which the caller receives as a 500 without
    detail, whatever the upstream server would answer. *)
Theorem startup_failure_leaves_no_service (s : Settings)
    (p : SSHConfigProvider) (env : Remote) (e : Py.exn) :
  init s p = Py.Raise e ->
  exists app',
    startup_event s p env {| proxy_service := None |} = (Py.Raise e, app', []) /\
    (forall app0, startup_event s p env app0 = (Py.Raise e, app0, [])) /\
    proxy_service app' = None /\
    (forall upstream filename,
        caller_sees status_code (fst (proxy_data app' upstream filename))
        = (500, InternalServerError)) /\
    caller_sees (fun _ => 200) (fst (health_check app'))
    = (500, InternalServerError).
Proof.
  intros Hinit. exists {| proxy_service := None |}.
  unfold startup_event. rewrite Hinit. repeat split.
Qed.

(** The theorem at the entry [Port ssh]. *)
Lemma startup_failure_leaves_no_service_witness :
  exists app',
    startup_event alias_settings (ssh_config_with_port "ssh") all_fine
      {| proxy_service := None |}
    = (Py.Raise (Py.Exn Py.ValueError
                   "invalid literal for int() with base 10: 'ssh'"),
       app', []) /\
    (forall app0,
        startup_event alias_settings (ssh_config_with_port "ssh") all_fine app0
        = (Py.Raise (Py.Exn Py.ValueError
                       "invalid literal for int() with base 10: 'ssh'"),
           app0, [])) /\
    proxy_service app' = None /\
    (forall upstream filename,
        caller_sees status_code (fst (proxy_data app' upstream filename))
        = (500, InternalServerError)) /\
    caller_sees (fun _ => 200) (fst (health_check app'))
    = (500, InternalServerError).
Proof.
  apply (startup_failure_leaves_no_service alias_settings
           (ssh_config_with_port "ssh") all_fine).
  reflexivity.
Defined.

(** X4: with a non-empty alias the resolver reads nothing but the alias:
    an explicit host, username or key path set beside it is ignored. *)
Theorem alias_overrides_explicit_parameters (s1 s2 : Settings)
    (p : SSHConfigProvider) :
  Py.truthy (ssh_host_alias s1) = true ->
  ssh_host_alias s1 = ssh_host_alias s2 ->
  _get_ssh_config s1 p = _get_ssh_config s2 p.
Proof.
  intros Htrue Heq. unfold _get_ssh_config.
  rewrite <- Heq, Htrue. reflexivity.
Qed.

(** The theorem at the alias [lab], alone and beside explicit parameters. *)
Lemma alias_overrides_explicit_parameters_witness :
  _get_ssh_config alias_settings lab_ssh_config_file
  = _get_ssh_config
      {| ssh_host_alias := Some "lab"; ssh_host := Some "files.example.org";
         ssh_username := Some "grace"; ssh_key_path := Some "/tmp/key";
         data_path := "/srv/data"; local_port := 9000; remote_port := 9001;
         fastapi_port := 5000 |}
      lab_ssh_config_file.
Proof.
  apply (alias_overrides_explicit_parameters alias_settings); reflexivity.
Defined.

(** X5: without a [~/.ssh/config] file an alias still resolves: the
    hostname is the alias itself, there is no username and no key, and the
    port is 22. *)
Theorem alias_without_config_file (s : Settings) (a : string) :
  ssh_host_alias s = Some a -> a <> "" ->
  _get_ssh_config s (_load_ssh_config None)
  = Py.Ok {| hostname := Some a; username := None; key_filename := None;
             port := 22 |}.
Proof.
  intros Ha Hne. unfold _get_ssh_config. rewrite Ha. simpl.
  destruct (String.eqb_spec a ""); [contradiction|]. reflexivity.
Qed.

(** The theorem at the alias [lab]. *)
Lemma alias_without_config_file_witness :
  _get_ssh_config alias_settings (_load_ssh_config None)
  = Py.Ok {| hostname := Some "lab"; username := None; key_filename := None;
             port := 22 |}.
Proof.
  apply (alias_without_config_file alias_settings "lab");
    [reflexivity | discriminate].
Defined.

(** ** More on start and stop *)

Lemma launch_is_not_kill (data_path : string) (remote_port : Z) :
  launch_cmd data_path remote_port <> kill_cmd remote_port.
Proof.
  unfold launch_cmd, kill_cmd. intros H.
  apply (f_equal (fun t => String.get 0 t)) in H. discriminate H.
Qed.

Ltac no_launch :=
  let H := fresh "Hin" in
  intros H; exfalso; apply list_elem_of_In in H; simpl in H;
  repeat match type of H with
         | _ \/ _ => destruct H as [H|H]
         | False => exact H
         | exec_command _ = exec_command _ =>
             injection H as H; symmetry in H;
             exact (launch_is_not_kill _ _ H)
         | _ = _ => discriminate H
         end.

(** X6: the launch command is issued only when the tunnel was created and
    started, the SSH session was connected and the [pkill] command was
    issued without an error; after any earlier failure the remote server is
    never launched. *)
Theorem launch_only_after_every_step (env : Remote) (s : DataProxyService) :
  exec_command (launch_cmd (data_path (settings s)) (remote_port (settings s)))
    ∈ snd (snd (start env (s, []))) ->
  on_tunnel_init env = None /\
  on_tunnel_start env = Returns /\
  on_connect env = Returns /\
  on_exec env (kill_cmd (remote_port (settings s))) = None.
Proof.
  rewrite start_unfold.
  destruct s as [cfg_s [t|] [c|] http p cfg];
    unfold start_body, acquire, Method.bind, Method.self, Method.assign,
      Method.call, Method.check, Method.raise, Method.ret, stop_calls; simpl;
    (destruct (on_tunnel_init env); simpl; [no_launch|]);
    (destruct (on_tunnel_start env); simpl; [|no_launch]);
    (destruct (on_connect env); simpl; [|no_launch]);
    (destruct (on_exec env (kill_cmd (remote_port cfg_s))); simpl;
     [no_launch|]);
    intros _; repeat split.
Qed.

(** The theorem at a run in which every call returns. *)
Lemma launch_only_after_every_step_witness :
  on_tunnel_init all_fine = None /\
  on_tunnel_start all_fine = Returns /\
  on_connect all_fine = Returns /\
  on_exec all_fine (kill_cmd (remote_port (settings explicit_service))) = None.
Proof.
  apply (launch_only_after_every_step all_fine explicit_service).
  apply list_elem_of_In. simpl. do 6 right. left. reflexivity.
Defined.

(** X7: [stop] closes the HTTP client first, then the SSH client and then
    the tunnel, each of the two only if [start] got as far as creating it;
    it never calls into an object that does not exist, and it creates none. *)
Theorem stop_closes_only_what_exists (s : DataProxyService) :
  exists s',
    stop (s, [])
    = (Py.Ok tt,
       (s',
        (client_aclose
         :: (if Py.is_not_None (ssh_client s) then [ssh_close] else [])
         ++ (if Py.is_not_None (tunnel s) then [tunnel_stop] else []))%list)) /\
    Py.is_not_None (ssh_client s') = Py.is_not_None (ssh_client s) /\
    Py.is_not_None (tunnel s') = Py.is_not_None (tunnel s).
Proof.
  exists (stopped s). rewrite stop_runs. unfold stop_calls, stopped; simpl.
  destruct (ssh_client s), (tunnel s); repeat split.
Qed.

Lemma start_keeps_configuration (env : Remote) (s : DataProxyService)
    (tr : list event) :
  settings (fst (snd (start env (s, tr)))) = settings s /\
  ssh_config (fst (snd (start env (s, tr)))) = ssh_config s /\
  ssh_config_provider (fst (snd (start env (s, tr)))) = ssh_config_provider s.
Proof.
  rewrite start_unfold.
  destruct s as [cfg_s t c http p cfg];
    unfold start_body, acquire, Method.bind, Method.self, Method.assign,
      Method.call, Method.check, Method.raise, Method.ret; simpl.
  destruct (on_tunnel_init env); simpl; [repeat split|].
  destruct (on_tunnel_start env); simpl; [|repeat split].
  destruct (on_connect env); simpl; [|repeat split].
  destruct (on_exec env (kill_cmd (remote_port cfg_s))); simpl;
    [repeat split|].
  destruct (on_exec env (launch_cmd (data_path cfg_s) (remote_port cfg_s)));
    simpl; repeat split.
Qed.

Lemma startup_event_started (s : Settings) (p : SSHConfigProvider)
    (env : Remote) (app : App) (svc : DataProxyService) :
  init s p = Py.Ok svc ->
  startup_event s p env app
  = (fst (start env (svc, [])),
     {| proxy_service := Some (fst (snd (start env (svc, [])))) |},
     snd (snd (start env (svc, [])))).
Proof.
  intros Hinit. unfold startup_event. rewrite Hinit.
  destruct (start env (svc, [])) as [r [svc' calls]]. reflexivity.
Qed.

Lemma shutdown_event_stops (svc : DataProxyService) :
  shutdown_event {| proxy_service := Some svc |}
  = (Py.Ok tt, {| proxy_service := Some (stopped svc) |}, stop_calls svc).
Proof.
  unfold shutdown_event. simpl. rewrite stop_runs. reflexivity.
Qed.

Lemma init_fields (s : Settings) (p : SSHConfigProvider)
    (svc : DataProxyService) :
  init s p = Py.Ok svc ->
  settings svc = s /\ _get_ssh_config s p = Py.Ok (ssh_config svc).
Proof.
  unfold init. destruct (_get_ssh_config s p); simpl; [|discriminate].
  intros H; inversion H; subst; simpl. split; reflexivity.
Qed.

Lemma start_returns_holding (env : Remote) (s s' : DataProxyService)
    (tr tr' : list event) :
  start env (s, tr) = (Py.Ok tt, (s', tr')) ->
  tunnel s' = Some {| tunnel_alive := true |} /\
  ssh_client s' = Some {| ssh_open := true |}.
Proof.
  intros Hstart.
  destruct (first_failure env s) as [e|] eqn:Hfail.
  - exfalso. pose proof (start_body_outcome env s tr) as Hout.
    rewrite Hfail in Hout. rewrite start_unfold in Hstart.
    destruct (start_body env (s, tr)) as [[[]|e'] [s1 tr1]];
      simpl in Hout; [discriminate Hout | discriminate Hstart].
  - destruct (start_success env s tr Hfail) as [s2 [tr2 [H2 [Ht [Hc _]]]]].
    rewrite H2 in Hstart. inversion Hstart; subst. split; assumption.
Qed.

(** X8: whatever happened at startup, with [start] returning or raising at
    any step, the shutdown that follows returns without an error.  It calls
    [aclose] on the HTTP client, then [close] on the SSH client and [stop]
    on the tunnel whenever startup left the service with them (after a
    startup that returned: all three calls), and leaves each of them closed,
    so that no resource of the service is held.  The global stays bound to
    the service, with its settings. *)
Theorem shutdown_after_any_startup (s : Settings) (p : SSHConfigProvider)
    (env : Remote) (svc : DataProxyService) :
  init s p = Py.Ok svc ->
  exists r svc1 calls1 svc2 calls2,
    start env (svc, []) = (r, (svc1, calls1)) /\
    startup_event s p env {| proxy_service := None |}
    = (r, {| proxy_service := Some svc1 |}, calls1) /\
    shutdown_event {| proxy_service := Some svc1 |}
    = (Py.Ok tt, {| proxy_service := Some svc2 |}, calls2) /\
    calls2
    = (client_aclose
       :: (if Py.is_not_None (ssh_client svc1) then [ssh_close] else [])
       ++ (if Py.is_not_None (tunnel svc1) then [tunnel_stop] else []))%list /\
    match r with
    | Py.Ok _ => calls2 = [client_aclose; ssh_close; tunnel_stop]
    | Py.Raise _ => released svc1
    end /\
    client_open svc2 = false /\
    ssh_client svc2
    = (if Py.is_not_None (ssh_client svc1)
       then Some {| ssh_open := false |} else None) /\
    tunnel svc2
    = (if Py.is_not_None (tunnel svc1)
       then Some {| tunnel_alive := false |} else None) /\
    released svc2 /\
    settings svc2 = s.
Proof.
  intros Hinit.
  destruct (start env (svc, [])) as [r [svc1 calls1]] eqn:Hstart.
  exists r, svc1, calls1, (stopped svc1), (stop_calls svc1).
  split; [reflexivity|].
  split.
  { rewrite (startup_event_started s p env _ svc Hinit), Hstart. reflexivity. }
  split; [apply shutdown_event_stops|].
  split.
  { unfold stop_calls. destruct (ssh_client svc1), (tunnel svc1); reflexivity. }
  split.
  { destruct r as [[]|e].
    - destruct (start_returns_holding env svc svc1 [] calls1 Hstart)
        as [Ht Hc].
      unfold stop_calls. rewrite Ht, Hc. reflexivity.
    - rewrite start_unfold in Hstart.
      destruct (start_body env (svc, [])) as [[[]|e'] [s1 tr1]];
        inversion Hstart; subst. apply stopped_released. }
  split; [reflexivity|].
  split; [unfold stopped; simpl; destruct (ssh_client svc1); reflexivity|].
  split; [unfold stopped; simpl; destruct (tunnel svc1); reflexivity|].
  split; [apply stopped_released|].
  destruct (start_keeps_configuration env svc []) as [Hs _].
  destruct (init_fields s p svc Hinit) as [Hsvc _].
  rewrite Hstart in Hs. simpl in Hs. simpl. rewrite Hs. exact Hsvc.
Qed.

(** The theorem at a startup whose SSH login is refused. *)
Lemma shutdown_after_any_startup_witness :
  exists r svc1 calls1 svc2 calls2,
    start login_refused (explicit_service, []) = (r, (svc1, calls1)) /\
    startup_event explicit_settings no_ssh_config_file login_refused
      {| proxy_service := None |}
    = (r, {| proxy_service := Some svc1 |}, calls1) /\
    shutdown_event {| proxy_service := Some svc1 |}
    = (Py.Ok tt, {| proxy_service := Some svc2 |}, calls2) /\
    calls2
    = (client_aclose
       :: (if Py.is_not_None (ssh_client svc1) then [ssh_close] else [])
       ++ (if Py.is_not_None (tunnel svc1) then [tunnel_stop] else []))%list /\
    match r with
    | Py.Ok _ => calls2 = [client_aclose; ssh_close; tunnel_stop]
    | Py.Raise _ => released svc1
    end /\
    client_open svc2 = false /\
    ssh_client svc2
    = (if Py.is_not_None (ssh_client svc1)
       then Some {| ssh_open := false |} else None) /\
    tunnel svc2
    = (if Py.is_not_None (tunnel svc1)
       then Some {| tunnel_alive := false |} else None) /\
    released svc2 /\
    settings svc2 = explicit_settings.
Proof.
  apply (shutdown_after_any_startup explicit_settings no_ssh_config_file
           login_refused explicit_service).
  reflexivity.
Defined.

(** A startup in which nothing fails, then shutdown: the three closes, on a
    session and a tunnel that were open. *)
Example startup_then_shutdown :
  let '(r, app1, _) :=
    startup_event explicit_settings no_ssh_config_file all_fine
      {| proxy_service := None |} in
  (r, tunnel <$> proxy_service app1, ssh_client <$> proxy_service app1,
   shutdown_event app1)
  = (Py.Ok tt, Some (Some {| tunnel_alive := true |}),
     Some (Some {| ssh_open := true |}),
     (Py.Ok tt,
      {| proxy_service :=
           Some {| settings := explicit_settings;
                   tunnel := Some {| tunnel_alive := false |};
                   ssh_client := Some {| ssh_open := false |};
                   client_open := false;
                   ssh_config_provider := no_ssh_config_file;
                   ssh_config := ssh_config explicit_service |} |},
      [client_aclose; ssh_close; tunnel_stop])).
Proof. reflexivity. Qed.

(** ** More on the handlers *)

(** X9: [health_check] reports the configuration, not the connection:
    after a startup that failed at any step, and after shutdown, it still
    answers with status OK and the hostname and username the service was
    constructed with. *)
Theorem health_is_not_liveness (s : Settings) (p : SSHConfigProvider)
    (env : Remote) (svc : DataProxyService) :
  init s p = Py.Ok svc ->
  exists r app1 calls1 r2 app2 calls2,
    startup_event s p env {| proxy_service := None |} = (r, app1, calls1) /\
    shutdown_event app1 = (r2, app2, calls2) /\
    fst (health_check app1)
    = Return {| status := "OK";
                connection :=
                  {| conn_hostname := hostname (ssh_config svc);
                     conn_username := username (ssh_config svc);
                     using_ssh_config := Py.is_not_None (ssh_host_alias s) |} |} /\
    fst (health_check app2) = fst (health_check app1).
Proof.
  intros Hinit.
  destruct (start_keeps_configuration env svc []) as [Hs [Hc _]].
  destruct (init_fields s p svc Hinit) as [Hsvc _].
  eexists _, _, _, _, _, _.
  split; [apply (startup_event_started s p env _ svc Hinit)|].
  split; [apply shutdown_event_stops|].
  unfold health_check; simpl. rewrite Hs, Hc, Hsvc. split; reflexivity.
Qed.

(** The theorem at a startup whose SSH login is refused. *)
Lemma health_is_not_liveness_witness :
  exists r app1 calls1 r2 app2 calls2,
    startup_event explicit_settings no_ssh_config_file login_refused
      {| proxy_service := None |}
    = (r, app1, calls1) /\
    shutdown_event app1 = (r2, app2, calls2) /\
    fst (health_check app1)
    = Return {| status := "OK";
                connection :=
                  {| conn_hostname := hostname (ssh_config explicit_service);
                     conn_username := username (ssh_config explicit_service);
                     using_ssh_config :=
                       Py.is_not_None (ssh_host_alias explicit_settings) |} |} /\
    fst (health_check app2) = fst (health_check app1).
Proof.
  apply (health_is_not_liveness explicit_settings no_ssh_config_file
           login_refused explicit_service).
  reflexivity.
Defined.

(** X10: [proxy_data] reads nothing of the service but the local port: it
    does not look at the tunnel, the SSH client or the shared HTTP client,
    so on a stopped service it goes on fetching as on a running one. *)
Theorem proxy_data_ignores_lifecycle (svc1 svc2 : DataProxyService)
    (upstream : string -> Py.result httpx.Wire) (filename : string) :
  local_port (settings svc1) = local_port (settings svc2) ->
  fst (proxy_data {| proxy_service := Some svc1 |} upstream filename)
  = fst (proxy_data {| proxy_service := Some svc2 |} upstream filename).
Proof.
  intros Hport. unfold proxy_data; simpl. rewrite Hport.
  destruct (httpx.client_get upstream
              (url_of (local_port (settings svc2)) filename)) as [r|e].
  - destruct (Z.eqb (httpx.status_code r) 404); reflexivity.
  - destruct (Py.isinstance e Py.HTTPError); reflexivity.
Qed.

(** The theorem at a service before and after [stop]. *)
Lemma proxy_data_ignores_lifecycle_witness :
  fst (proxy_data {| proxy_service := Some explicit_service |}
         (fun _ => Py.Ok upstream_403) "private/")
  = fst (proxy_data {| proxy_service := Some (stopped explicit_service) |}
           (fun _ => Py.Ok upstream_403) "private/").
Proof.
  apply (proxy_data_ignores_lifecycle explicit_service
           (stopped explicit_service)).
  reflexivity.
Defined.

(** X11: every failed fetch reaches the caller as a 500; the error's text
    is the detail exactly when the error is an [httpx.HTTPError], and any
    other exception (an invalid URL, say) passes the [except] clause and is
    answered without detail.  The global is left as it was. *)
Theorem failed_fetch_is_500 (app : App) (svc : DataProxyService)
    (upstream : string -> Py.result httpx.Wire) (filename : string)
    (e : Py.exn) :
  proxy_service app = Some svc ->
  upstream (url_of (local_port (settings svc)) filename) = Py.Raise e ->
  caller_sees status_code (fst (proxy_data app upstream filename))
  = (500, if Py.isinstance e Py.HTTPError then Detail (Py.exn_str e)
          else InternalServerError) /\
  snd (proxy_data app upstream filename) = app.
Proof.
  intros Hsvc Hup.
  rewrite (proxy_data_fetch_raises app svc upstream filename Hsvc e Hup).
  destruct (Py.isinstance e Py.HTTPError); split; reflexivity.
Qed.

(** The theorem at an invalid URL. *)
Lemma failed_fetch_is_500_witness :
  caller_sees status_code
    (fst (proxy_data explicit_app (fun _ => Py.Raise invalid_url) "x"))
  = (500, if Py.isinstance invalid_url Py.HTTPError
          then Detail (Py.exn_str invalid_url) else InternalServerError) /\
  snd (proxy_data explicit_app (fun _ => Py.Raise invalid_url) "x")
  = explicit_app.
Proof.
  apply (failed_fetch_is_500 explicit_app explicit_service
           (fun _ => Py.Raise invalid_url) "x" invalid_url);
    reflexivity.
Defined.

(** X12: when the upstream body is empty the response iterator yields no
    chunk at all, not one empty chunk; the status is still 200. *)
Theorem empty_body_yields_no_chunk (app : App) (svc : DataProxyService)
    (upstream : string -> Py.result httpx.Wire) (filename : string)
    (w : httpx.Wire) :
  proxy_service app = Some svc ->
  upstream (url_of (local_port (settings svc)) filename) = Py.Ok w ->
  httpx.wire_status w <> 404 ->
  concat (httpx.wire_body w) = [] ->
  exists r,
    fst (proxy_data app upstream filename) = Return r /\
    body_iterator r = [] /\
    status_code r = 200.
Proof.
  intros Hsvc Hup Hstatus Hbody.
  rewrite (proxy_data_fetch_ok app svc upstream filename Hsvc w Hup).
  apply Z.eqb_neq in Hstatus. rewrite Hstatus.
  eexists. split; [reflexivity|]. simpl. split; [|reflexivity].
  apply (aiter_bytes_empty (fetched w)). exact Hbody.
Qed.

(** The theorem at an upstream answer without a body. *)
Lemma empty_body_yields_no_chunk_witness :
  exists r,
    fst (proxy_data explicit_app (fun _ => Py.Ok upstream_empty) "empty.txt")
    = Return r /\
    body_iterator r = [] /\
    status_code r = 200.
Proof.
  apply (empty_body_yields_no_chunk explicit_app explicit_service
           (fun _ => Py.Ok upstream_empty) "empty.txt" upstream_empty);
    try reflexivity.
  simpl. lia.
Defined.

(** X13: the handler invents no header: every entry of the response's
    headers has a lower-case name other than content-length, stands for at
    least one upstream header line of that name, and holds what upstream's
    [get] answers for it. *)
Theorem forwarded_headers_come_from_upstream (app : App)
    (svc : DataProxyService) (upstream : string -> Py.result httpx.Wire)
    (filename : string) (w : httpx.Wire) :
  proxy_service app = Some svc ->
  upstream (url_of (local_port (settings svc)) filename) = Py.Ok w ->
  httpx.wire_status w <> 404 ->
  exists r,
    fst (proxy_data app upstream filename) = Return r /\
    forall k v,
      headers r !! k = Some v ->
      Py.lower k = k /\
      k <> "content-length" /\
      httpx.get (httpx.wire_headers w) k = Some v /\
      exists k0 v0, (k0, v0) ∈ httpx.wire_headers w /\ Py.lower k0 = k.
Proof.
  intros Hsvc Hup Hstatus.
  rewrite (proxy_data_fetch_ok app svc upstream filename Hsvc w Hup).
  apply Z.eqb_neq in Hstatus. rewrite Hstatus.
  eexists. split; [reflexivity|]. simpl. intros k v Hkv.
  apply map_lookup_filter_Some in Hkv as [Hitem Hkeep]. simpl in Hkeep.
  rewrite items_lookup in Hitem.
  destruct (decide (Py.lower k = k)) as [Hlow|]; [|discriminate].
  split; [exact Hlow|]. split; [congruence|]. split; [exact Hitem|].
  unfold httpx.get in Hitem.
  destruct (httpx.values_of (httpx.wire_headers w) k) as [|v1 vs] eqn:Hvs;
    [discriminate|].
  assert (Hin : v1 ∈ httpx.values_of (httpx.wire_headers w) k)
    by (rewrite Hvs; left).
  unfold httpx.values_of in Hin.
  apply list_elem_of_fmap in Hin as [[k0 v0] [_ Hin]].
  apply list_elem_of_filter in Hin as [Hk0 Hin]. simpl in Hk0.
  exists k0, v0. split; [exact Hin | congruence].
Qed.

(** The theorem at an upstream 403 with five header lines. *)
Lemma forwarded_headers_come_from_upstream_witness :
  exists r,
    fst (proxy_data explicit_app (fun _ => Py.Ok upstream_403) "private/")
    = Return r /\
    forall k v,
      headers r !! k = Some v ->
      Py.lower k = k /\
      k <> "content-length" /\
      httpx.get (httpx.wire_headers upstream_403) k = Some v /\
      exists k0 v0, (k0, v0) ∈ httpx.wire_headers upstream_403 /\ Py.lower k0 = k.
Proof.
  apply (forwarded_headers_come_from_upstream explicit_app explicit_service
           (fun _ => Py.Ok upstream_403) "private/" upstream_403);
    try reflexivity.
  simpl. lia.
Defined.

(** X14: the media type of the response and the content-type entry of its
    headers are always the same value, present or absent together. *)
Theorem media_type_is_forwarded_content_type (app : App)
    (svc : DataProxyService) (upstream : string -> Py.result httpx.Wire)
    (filename : string) (w : httpx.Wire) :
  proxy_service app = Some svc ->
  upstream (url_of (local_port (settings svc)) filename) = Py.Ok w ->
  httpx.wire_status w <> 404 ->
  exists r,
    fst (proxy_data app upstream filename) = Return r /\
    headers r !! "content-type" = media_type r.
Proof.
  intros Hsvc Hup Hstatus.
  rewrite (proxy_data_fetch_ok app svc upstream filename Hsvc w Hup).
  apply Z.eqb_neq in Hstatus. rewrite Hstatus.
  eexists. split; [reflexivity|]. simpl.
  pose proof (items_lookup (httpx.wire_headers w) "content-type") as Hitem.
  destruct (decide (Py.lower "content-type" = "content-type")) as [_|Hne];
    [|exfalso; apply Hne; reflexivity].
  destruct (httpx.get (httpx.wire_headers w) "content-type") as [v|].
  - apply map_lookup_filter_Some. split; [exact Hitem|].
    simpl. discriminate.
  - apply map_lookup_filter_None. left. exact Hitem.
Qed.

(** The theorem at an upstream 403 with a content-type line. *)
Lemma media_type_is_forwarded_content_type_witness :
  exists r,
    fst (proxy_data explicit_app (fun _ => Py.Ok upstream_403) "private/")
    = Return r /\
    headers r !! "content-type" = media_type r.
Proof.
  apply (media_type_is_forwarded_content_type explicit_app explicit_service
           (fun _ => Py.Ok upstream_403) "private/" upstream_403);
    try reflexivity.
  simpl. lia.
Defined.

(** ** The command line entry point *)

Ltac by_cases_on_args args :=
  destruct args as [alias host user key dp lp rp fp];
  destruct alias as [alias|]; destruct host as [host|];
  destruct user as [user|]; destruct key as [key|];
  unfold main, setenv; simpl;
  repeat match goal with
         | |- context [String.eqb ?x ""] => destruct (String.eqb_spec x "")
         end;
  subst; simpl.

(** X15: what each way [main] can end says about the arguments.  A usage
    error means a non-empty host came without a username, and the
    environment was not touched.  A TypeError means there was no non-empty
    alias and either no host, or an empty host without a username.  And
    [uvicorn.run] is called on 0.0.0.0 and the given port only with a
    non-empty alias or with both a host and a username. *)
Theorem main_outcome (args : Namespace) (environ : gmap string string) :
  match fst (main args environ) with
  | parser_error message =>
      message = "--ssh-username is required when using --ssh-host" /\
      Py.truthy (arg_ssh_host args) = true /\
      Py.truthy (arg_ssh_username args) = false /\
      snd (main args environ) = environ
  | TypeError_str_expected name =>
      Py.truthy (arg_ssh_host_alias args) = false /\
      ((name = "PROXY_SSH_HOST" /\ arg_ssh_host args = None) \/
       (name = "PROXY_SSH_USERNAME" /\ arg_ssh_host args = Some "" /\
        arg_ssh_username args = None))
  | uvicorn_run host prt =>
      host = "0.0.0.0" /\ prt = arg_fastapi_port args /\
      (Py.truthy (arg_ssh_host_alias args) = true \/
       (Py.is_not_None (arg_ssh_host args) = true /\
        Py.is_not_None (arg_ssh_username args) = true))
  end.
Proof.
  by_cases_on_args args; repeat split; auto.
Qed.

(** X16: an empty alias passes the argument checks and then stops [main]
    with a TypeError, before any variable is exported: the alias is tested
    for truth, and the host the other branch exports is [None]. *)
Theorem main_empty_alias_TypeError (args : Namespace)
    (environ : gmap string string) :
  arg_ssh_host_alias args = Some "" ->
  arg_ssh_host args = None ->
  one_of_group args = true /\
  main args environ = (TypeError_str_expected "PROXY_SSH_HOST", environ).
Proof.
  destruct args as [alias host user key dp lp rp fp]. simpl.
  intros -> ->. split; reflexivity.
Qed.

(** The theorem at [--ssh-host-alias ''] in an empty environment. *)
Lemma main_empty_alias_TypeError_witness :
  one_of_group empty_alias_args = true /\
  main empty_alias_args ∅ = (TypeError_str_expected "PROXY_SSH_HOST", ∅).
Proof.
  apply (main_empty_alias_TypeError empty_alias_args ∅); reflexivity.
Defined.

(** X17: with a non-empty alias [main] exports the alias, the data path and
    the three ports, and nothing else: a username or key path given beside
    the alias is dropped, and every other variable of the environment,
    [PROXY_SSH_HOST], [PROXY_SSH_USERNAME] and [PROXY_SSH_KEY_PATH]
    included, keeps the value it had. *)
Theorem main_alias_exports (args : Namespace) (environ : gmap string string)
    (a : string) :
  arg_ssh_host_alias args = Some a -> a <> "" ->
  arg_ssh_host args = None ->
  exists environ',
    main args environ
    = (uvicorn_run "0.0.0.0" (arg_fastapi_port args), environ') /\
    environ' !! "PROXY_SSH_HOST_ALIAS" = Some a /\
    environ' !! "PROXY_DATA_PATH" = Some (arg_data_path args) /\
    environ' !! "PROXY_LOCAL_PORT"
    = Some (Py.str_of_int (arg_local_port args)) /\
    environ' !! "PROXY_REMOTE_PORT"
    = Some (Py.str_of_int (arg_remote_port args)) /\
    environ' !! "PROXY_FASTAPI_PORT"
    = Some (Py.str_of_int (arg_fastapi_port args)) /\
    forall name,
      name ∉ ["PROXY_SSH_HOST_ALIAS"; "PROXY_DATA_PATH"; "PROXY_LOCAL_PORT";
              "PROXY_REMOTE_PORT"; "PROXY_FASTAPI_PORT"] ->
      environ' !! name = environ !! name.
Proof.
  destruct args as [alias host user key dp lp rp fp]. simpl.
  intros -> Hne ->. unfold main, setenv; simpl.
  destruct (String.eqb_spec a ""); [contradiction|]. simpl.
  eexists. split; [reflexivity|].
  repeat (split; [by simplify_map_eq|]).
  intros name Hname.
  repeat (apply not_elem_of_cons in Hname as [? Hname]).
  by simplify_map_eq.
Qed.

(** The theorem at [--ssh-host-alias lab --ssh-username ignored
    --ssh-key-path /tmp/key]. *)
Lemma main_alias_exports_witness :
  exists environ',
    main alias_args (∅ : gmap string string)
    = (uvicorn_run "0.0.0.0" 5001, environ') /\
    environ' !! "PROXY_SSH_HOST_ALIAS" = Some "lab" /\
    environ' !! "PROXY_DATA_PATH" = Some "/srv/data" /\
    environ' !! "PROXY_LOCAL_PORT" = Some (Py.str_of_int 8000) /\
    environ' !! "PROXY_REMOTE_PORT" = Some (Py.str_of_int 8001) /\
    environ' !! "PROXY_FASTAPI_PORT" = Some (Py.str_of_int 5001) /\
    forall name,
      name ∉ ["PROXY_SSH_HOST_ALIAS"; "PROXY_DATA_PATH"; "PROXY_LOCAL_PORT";
              "PROXY_REMOTE_PORT"; "PROXY_FASTAPI_PORT"] ->
      environ' !! name = (∅ : gmap string string) !! name.
Proof.
  apply (main_alias_exports alias_args ∅ "lab");
    [reflexivity | discriminate | reflexivity].
Defined.

(** X18: with a host and a username [main] exports both, exports the key
    path only when it is not empty, and exports the data path and the ports;
    it never unsets anything, so a [PROXY_SSH_HOST_ALIAS] already in the
    environment is still there when the server starts. *)
Theorem main_host_exports (args : Namespace) (environ : gmap string string)
    (h u : string) :
  arg_ssh_host_alias args = None ->
  arg_ssh_host args = Some h ->
  arg_ssh_username args = Some u ->
  (h <> "" -> u <> "") ->
  exists environ',
    main args environ
    = (uvicorn_run "0.0.0.0" (arg_fastapi_port args), environ') /\
    environ' !! "PROXY_SSH_HOST" = Some h /\
    environ' !! "PROXY_SSH_USERNAME" = Some u /\
    environ' !! "PROXY_SSH_KEY_PATH"
    = (if Py.truthy (arg_ssh_key_path args) then arg_ssh_key_path args
       else environ !! "PROXY_SSH_KEY_PATH") /\
    environ' !! "PROXY_DATA_PATH" = Some (arg_data_path args) /\
    environ' !! "PROXY_LOCAL_PORT"
    = Some (Py.str_of_int (arg_local_port args)) /\
    environ' !! "PROXY_REMOTE_PORT"
    = Some (Py.str_of_int (arg_remote_port args)) /\
    environ' !! "PROXY_FASTAPI_PORT"
    = Some (Py.str_of_int (arg_fastapi_port args)) /\
    environ' !! "PROXY_SSH_HOST_ALIAS" = environ !! "PROXY_SSH_HOST_ALIAS".
Proof.
  destruct args as [alias host user key dp lp rp fp]. simpl.
  intros -> -> -> Hu. unfold main, setenv; simpl.
  assert (Hvalid : (negb (String.eqb h "") && negb (negb (String.eqb u "")))%bool
                   = false).
  { destruct (String.eqb_spec h ""); [reflexivity|]. simpl.
    destruct (String.eqb_spec u ""); [|reflexivity].
    exfalso. apply Hu; assumption. }
  rewrite Hvalid.
  destruct key as [k|]; simpl;
    [destruct (String.eqb_spec k ""); simpl|];
    (eexists; split; [reflexivity|]);
    repeat (split; [by simplify_map_eq|]);
    by simplify_map_eq.
Qed.

(** The theorem at [--ssh-host files.example.org --ssh-username grace] in an
    environment that already holds [PROXY_SSH_HOST_ALIAS=lab]. *)
Lemma main_host_exports_witness :
  exists environ',
    main host_args {["PROXY_SSH_HOST_ALIAS" := "lab"]}
    = (uvicorn_run "0.0.0.0" 5001, environ') /\
    environ' !! "PROXY_SSH_HOST" = Some "files.example.org" /\
    environ' !! "PROXY_SSH_USERNAME" = Some "grace" /\
    environ' !! "PROXY_SSH_KEY_PATH"
    = (if Py.truthy (arg_ssh_key_path host_args)
       then arg_ssh_key_path host_args
       else ({["PROXY_SSH_HOST_ALIAS" := "lab"]} : gmap string string)
              !! "PROXY_SSH_KEY_PATH") /\
    environ' !! "PROXY_DATA_PATH" = Some "/srv/data" /\
    environ' !! "PROXY_LOCAL_PORT" = Some (Py.str_of_int 8000) /\
    environ' !! "PROXY_REMOTE_PORT" = Some (Py.str_of_int 8001) /\
    environ' !! "PROXY_FASTAPI_PORT" = Some (Py.str_of_int 5001) /\
    environ' !! "PROXY_SSH_HOST_ALIAS"
    = ({["PROXY_SSH_HOST_ALIAS" := "lab"]} : gmap string string)
        !! "PROXY_SSH_HOST_ALIAS".
Proof.
  apply (main_host_exports host_args {["PROXY_SSH_HOST_ALIAS" := "lab"]}
           "files.example.org" "grace");
    [reflexivity | reflexivity | reflexivity | discriminate].
Defined.

(** ** A start in which nothing fails *)

(** X19: when no step fails, [start] makes exactly seven library calls, in
    this order: it creates and starts the tunnel from the local port to the
    remote port, creates the SSH client, sets its host key policy and
    connects it, both times with the resolved hostname, username, key and
    port, then issues the [pkill] and the launch command.  It returns
    holding the tunnel and the SSH session, and does not touch the shared
    HTTP client. *)
Theorem start_without_failure (env : Remote) (s : DataProxyService) :
  first_failure env s = None ->
  start env (s, [])
  = (Py.Ok tt,
     ({| settings := settings s;
         tunnel := Some {| tunnel_alive := true |};
         ssh_client := Some {| ssh_open := true |};
         client_open := client_open s;
         ssh_config_provider := ssh_config_provider s;
         ssh_config := ssh_config s |},
      [SSHTunnelForwarder_init (hostname (ssh_config s))
         (username (ssh_config s)) (key_filename (ssh_config s))
         (port (ssh_config s)) (remote_port (settings s))
         (local_port (settings s));
       tunnel_start; SSHClient_init; set_missing_host_key_policy;
       ssh_connect (hostname (ssh_config s)) (username (ssh_config s))
         (key_filename (ssh_config s)) (port (ssh_config s));
       exec_command (kill_cmd (remote_port (settings s)));
       exec_command (launch_cmd (data_path (settings s))
                                (remote_port (settings s)))])).
Proof.
  unfold first_failure. destruct s as [cfg_s t c http p cfg]. run_method.
  destruct (on_tunnel_init env); simpl; [discriminate|].
  destruct (on_tunnel_start env); simpl; [|discriminate].
  destruct (on_connect env); simpl; [|discriminate].
  destruct (on_exec env (kill_cmd (remote_port cfg_s))); simpl;
    [discriminate|].
  destruct (on_exec env (launch_cmd (data_path cfg_s) (remote_port cfg_s)));
    simpl; [discriminate|].
  reflexivity.
Qed.

(** The theorem at a run in which every call returns. *)
Lemma start_without_failure_witness :
  start all_fine (explicit_service, [])
  = (Py.Ok tt,
     ({| settings := settings explicit_service;
         tunnel := Some {| tunnel_alive := true |};
         ssh_client := Some {| ssh_open := true |};
         client_open := client_open explicit_service;
         ssh_config_provider := ssh_config_provider explicit_service;
         ssh_config := ssh_config explicit_service |},
      [SSHTunnelForwarder_init (hostname (ssh_config explicit_service))
         (username (ssh_config explicit_service))
         (key_filename (ssh_config explicit_service))
         (port (ssh_config explicit_service))
         (remote_port (settings explicit_service))
         (local_port (settings explicit_service));
       tunnel_start; SSHClient_init; set_missing_host_key_policy;
       ssh_connect (hostname (ssh_config explicit_service))
         (username (ssh_config explicit_service))
         (key_filename (ssh_config explicit_service))
         (port (ssh_config explicit_service));
       exec_command (kill_cmd (remote_port (settings explicit_service)));
       exec_command (launch_cmd (data_path (settings explicit_service))
                                (remote_port (settings explicit_service)))])).
Proof.
  apply (start_without_failure all_fine explicit_service). reflexivity.
Defined.
